(** * Zino: bootstrap, privilege drop, state-dump debouncing and SNMP sessions

    A shallow embedding of [src/zino/zino.py] and [src/zino/snmp.py], and
    the properties of the daemon's coordination layer proved about it.

    Python code that logs, raises and mutates process-wide state is written
    in a small state-and-exception monad [Py S]: [S] is the part of the
    process state the function touches, the log is threaded next to it. *)

From stdpp Require Import gmap strings list pretty.

Open Scope Z_scope.

(** ** Python runtime: exceptions, logging, the [Py] monad *)

(** The exceptions that the two modules raise or catch. *)
Inductive Exn : Type :=
  | KeyError
  | IndexError
  | AttributeError
  | TypeError
  | OSError (errno : Z)
  | InvalidConfigurationError
  | ValidationError (text : string)
  | SystemExit (code : Z)
  | OverflowError.

Inductive Outcome (A : Type) : Type :=
  | Return (a : A)
  | Raise (e : Exn).
Arguments Return {A} a.
Arguments Raise {A} e.

(** An SNMP object identity: the positional arguments [ObjectIdentity]
    was built from (MIB name, symbol, index, ...). *)
Inductive ObjArg : Type :=
  | OStr (s : string)
  | OInt (n : Z).

Record ObjectIdentity : Type := mkObjectIdentity { oid_args : list ObjArg }.

(** [logging] levels and records.  A record keeps the format string and its
    arguments apart, as a call of [Logger.debug] with a format and arguments does. *)
Inductive Level : Type := DEBUG | INFO | WARNING | ERROR | FATAL.

Inductive LogArg : Type :=
  | ArgStr (s : string)
  | ArgInt (n : Z)
  | ArgTime (t : Z)
  | ArgOid (o : ObjectIdentity)
  | ArgExn (e : Exn).

Record LogRecord : Type := mkLogRecord {
  level : Level;
  msg : string;
  args : list LogArg
}.

(** The world a function runs in: its own state and the log written so far. *)
Record World (S : Type) : Type := mkWorld {
  heap : S;
  logged : list LogRecord
}.
Arguments mkWorld {S} heap logged.
Arguments heap {S} w.
Arguments logged {S} w.

Definition Py (S A : Type) : Type := World S → Outcome A * World S.

Global Instance Py_ret (S : Type) : MRet (Py S) :=
  λ A a w, (Return a, w).

Global Instance Py_bind (S : Type) : MBind (Py S) :=
  λ A B f m w,
    match m w with
    | (Return a, w') => f a w'
    | (Raise e, w') => (Raise e, w')
    end.

Definition raise {S A : Type} (e : Exn) : Py S A :=
  λ w, (Raise e, w).

(** Lift a pure computation that may raise. *)
Definition lift {S A : Type} (o : Outcome A) : Py S A :=
  λ w, (o, w).

Definition get_heap {S : Type} : Py S S :=
  λ w, (Return (heap w), w).

Definition put_heap {S : Type} (s : S) : Py S unit :=
  λ w, (Return tt, mkWorld s (logged w)).

(** [_log.debug], [_log.error], ...: append one record. *)
Definition log {S : Type} (l : Level) (m : string) (a : list LogArg) : Py S unit :=
  λ w, (Return tt, mkWorld (heap w) (logged w ++ [mkLogRecord l m a])).

(** [try: body  except <handles>: handler] *)
Definition try_except {S A : Type}
    (body : Py S A) (handles : Exn → bool) (handler : Exn → Py S A) : Py S A :=
  λ w,
    match body w with
    | (Return a, w') => (Return a, w')
    | (Raise e, w') => if handles e then handler e w' else (Raise e, w')
    end.

(** [sys.exit(code)] *)
Definition sys_exit {S A : Type} (code : Z) : Py S A := raise (SystemExit code).

(** Truthiness of a [str]. *)
Definition str_truthy (s : string) : bool :=
  match s with
  | EmptyString => false
  | _ => true
  end.

(** [l[i]] on a Python list, negative indices counting from the end. *)
Definition list_getitem {A : Type} (l : list A) (i : Z) : Outcome A :=
  let n := Z.of_nat (length l) in
  let j := if i <? 0 then i + n else i in
  if (j <? 0) || (n <=? j) then Raise IndexError
  else match l !! Z.to_nat j with
       | Some x => Return x
       | None => Raise IndexError
       end.

(** ** [zino/snmp.py] *)

Module Snmp.

(** The fields of [PollDevice] that this module reads. *)
Record PollDevice : Type := mkPollDevice {
  address : string;
  port : Z;
  community : string;
  hcounters : bool
}.

(** Values carried by a variable binding. *)
Inductive Value : Type :=
  | Null
  | Integer (n : Z)
  | OctetString (s : string).

(** [ObjectType(identity)]: item 0 is the identity, item 1 the value. *)
Definition ObjectType : Type := ObjectIdentity * Value.

(** A pysnmp integer with named values, such as [errorStatus]. *)
Record ErrorStatus : Type := mkErrorStatus {
  status_code : Z;
  prettyPrint : string
}.

(** What [getCmd] hands back:
    [(error_indication, error_status, error_index, var_binds)]. *)
Record Response : Type := mkResponse {
  error_indication : option string;
  error_status : ErrorStatus;
  error_index : Z;
  var_binds : list ObjectType
}.

Record CommunityData : Type := mkCommunityData {
  communityName : string;
  mpModel : Z
}.

Record UdpTransportTarget : Type := mkUdpTransportTarget {
  transport_host : string;
  transport_port : Z
}.

(** An [SnmpEngine] object, known by its identity. *)
Abbreviation Engine := nat (only parsing).

(** Execution contexts (threads). *)
Abbreviation Thread := nat (only parsing).

(** [_local = threading.local()]: the [snmp_engine] attribute as each
    thread sees it, and the number of engines constructed so far (the
    identity the next [SnmpEngine()] gets). *)
Record Local : Type := mkLocal {
  snmp_engine : gmap Thread Engine;
  constructed : nat
}.

(** The module right after import. *)
Definition fresh_local : Local := mkLocal ∅ 0%nat.

(** [SnmpEngine()] *)
Definition SnmpEngine : Py Local Engine :=
  l ← get_heap;
  _ ← put_heap (mkLocal (snmp_engine l) (S (constructed l)));
  mret (constructed l).

(** [_get_engine()], called from thread [me].  An engine object is
    truthy, so [not getattr(_local, "snmp_engine", None)] holds exactly
    when the attribute is not set in this thread. *)
Definition _get_engine (me : Thread) : Py Local Engine :=
  l ← get_heap;
  match snmp_engine l !! me with
  | Some e => mret e
  | None =>
      e ← SnmpEngine;
      l' ← get_heap;
      _ ← put_heap (mkLocal (<[me := e]> (snmp_engine l')) (constructed l'));
      mret e
  end.

(** [class SNMP]: a session for one device. *)
Record SNMP : Type := mkSNMP { device : PollDevice }.

(** [SNMP.mp_model] *)
Definition mp_model (self : SNMP) : Z :=
  if hcounters (device self) then 1 else 0.

Section Get.

(** The request/response exchange of pysnmp, awaited by [get]. *)
Variable getCmd :
  Engine → CommunityData → UdpTransportTarget → list ObjectType → Response.

(** [error_index and query[int(error_index) - 1][0] or "?"].  An
    object identity that was resolved is truthy, so the [or] branch is
    taken only for a zero index. *)
Definition culprit (query : list ObjectType) (error_index : Z) : Outcome LogArg :=
  if error_index =? 0 then Return (ArgStr "?")
  else match list_getitem query (error_index - 1) with
       | Return ot => Return (ArgOid (fst ot))
       | Raise e => Raise e
       end.

(** [SNMP.get], run in thread [me] with the positional arguments [object].
    [None] is Python's [None]. *)
Definition get (me : Thread) (self : SNMP) (object : list ObjArg)
  : Py Local (option Value) :=
  let query := [(mkObjectIdentity object, Null)] in
  engine ← _get_engine me;
  let r := getCmd engine
             (mkCommunityData (community (device self)) (mp_model self))
             (mkUdpTransportTarget (address (device self)) (port (device self)))
             query in
  match error_indication r with
  | Some indication =>
      _ ← log ERROR indication [];
      mret None
  | None =>
      if negb (status_code (error_status r) =? 0) then
        who ← lift (culprit query (error_index r));
        _ ← log ERROR "%s at %s" [ArgStr (prettyPrint (error_status r)); who];
        mret None
      else
        match var_binds r with
        | var_bind :: _ => mret (Some (snd var_bind))
        | [] => mret None
        end
  end.

End Get.

End Snmp.

(** ** [zino/zino.py] *)

Module Zino.

(** Instants and durations are counted in microseconds, the resolution of
    [datetime] and [timedelta]. *)
Definition timedelta_seconds (seconds : Z) : Z := seconds * 1000000.

Definition STATE_DUMP_JOB_ID : string := "zino.dump_state".

(** Never try to dump state more often than this. *)
Definition MINIMUM_STATE_DUMP_INTERVAL : Z := timedelta_seconds 10.

Definition DEFAULT_CONFIG_FILE : string := "zino.toml".

(** *** Command line and configuration *)

(** The [argparse.Namespace] that [parse_args] returns. *)
Record Namespace : Type := mkNamespace {
  polldevs : option string;
  config_file : option string;
  debug : bool;
  stop_in : option Z;
  trap_port : Z;
  user : option string
}.

(** Truthiness of an optional string argument ([None] and the empty string
    are false). *)
Definition arg_truthy (a : option string) : bool :=
  match a with
  | Some s => str_truthy s
  | None => false
  end.

(** [a or default] *)
Definition arg_or (a : option string) (default : string) : string :=
  match a with
  | Some s => if str_truthy s then s else default
  | None => default
  end.

Section Bootstrap.

(** [state.Configuration], and [zino.config.read_configuration] with the
    result or exception it gives for a file name and a pollfile. *)
Variable Configuration : Type.
Variable read_configuration : string → option string → Outcome Configuration.

(** The [except] clauses of [load_config]. *)
Definition config_error (e : Exn) : bool :=
  match e with
  | OSError _ | InvalidConfigurationError | ValidationError _ => true
  | _ => false
  end.

(** [load_config(args)].  [Return None] is the implicit [None] of the
    [except OSError] clause when no file name was given. *)
Definition load_config {S : Type} (args : Namespace) : Py S (option Configuration) :=
  try_except
    (config ← lift (read_configuration
                      (arg_or (config_file args) DEFAULT_CONFIG_FILE) (polldevs args));
     mret (Some config))
    config_error
    (λ e,
       match e with
       | OSError _ =>
           if arg_truthy (config_file args) then
             _ ← log FATAL
                   ("No config file with the name "
                      +:+ default ""%string (config_file args) +:+ " found.") [];
             sys_exit 1
           else mret None
       | InvalidConfigurationError =>
           _ ← log FATAL
                 ("Configuration file with the name "
                    +:+ arg_or (config_file args) DEFAULT_CONFIG_FILE
                    +:+ " is invalid TOML.") [];
           sys_exit 1
       | ValidationError text =>
           _ ← log FATAL text [];
           sys_exit 1
       | _ => raise e
       end).

(** The configuration step of [main]: [config = load_config(args)], then
    [state.config = config] if one was loaded.  The heap is [state.config];
    a [Configuration] object is truthy. *)
Definition main_config (args : Namespace) : Py Configuration (option Configuration) :=
  config ← load_config args;
  match config with
  | Some c => _ ← put_heap c; mret config
  | None => mret config
  end.

End Bootstrap.

(** *** Dropping privileges *)

Record struct_passwd : Type := mkPasswd {
  pw_name : string;
  pw_uid : Z;
  pw_gid : Z
}.

Record struct_group : Type := mkGroup {
  gr_name : string;
  gr_gid : Z;
  gr_mem : list string
}.

(** The identity of the process. *)
Record Identity : Type := mkIdentity {
  uid : Z;
  gid : Z;
  groups : list Z
}.

Inductive Syscall : Type :=
  | Setgid (g : Z)
  | Setgroups (gs : list Z)
  | Setuid (u : Z).

(** The process as [switch_to_user] sees it: its identity and the
    identity-changing system calls made so far, each with the errno it
    failed with, if it failed. *)
Record Process : Type := mkProcess {
  identity : Identity;
  syscalls : list (Syscall * option Z)
}.

(** What a system call does to the identity when the kernel accepts it. *)
Definition apply_syscall (c : Syscall) (i : Identity) : Identity :=
  match c with
  | Setgid g => mkIdentity (uid i) g (groups i)
  | Setgroups gs => mkIdentity (uid i) (gid i) gs
  | Setuid u => mkIdentity u (gid i) (groups i)
  end.

Section Privileges.

(** The user and group databases, and the kernel's verdict on a system call
    made under a given identity: [Some errno] when it refuses. *)
Variable passwd : list struct_passwd.
Variable group : list struct_group.
Variable kernel : Identity → Syscall → option Z.

(** [os.setgid], [os.setgroups], [os.setuid] *)
Definition syscall (c : Syscall) : Py Process unit :=
  p ← get_heap;
  match kernel (identity p) c with
  | Some errno =>
      _ ← put_heap (mkProcess (identity p) (syscalls p ++ [(c, Some errno)]));
      raise (OSError errno)
  | None =>
      put_heap (mkProcess (apply_syscall c (identity p)) (syscalls p ++ [(c, None)]))
  end.

Definition os_getuid : Py Process Z := p ← get_heap; mret (uid (identity p)).
Definition os_getgid : Py Process Z := p ← get_heap; mret (gid (identity p)).

(** [pwd.getpwnam(username)] *)
Definition getpwnam (username : string) : Outcome struct_passwd :=
  match List.find (λ u, String.eqb (pw_name u) username) passwd with
  | Some u => Return u
  | None => Raise KeyError
  end.

(** [[g.gr_gid for g in grp.getgrall() if username in g.gr_mem]] *)
Definition member_gids (username : string) : list Z :=
  gr_gid <$> List.filter (λ g, bool_decide (username ∈ gr_mem g)) group.

Definition is_KeyError (e : Exn) : bool :=
  match e with KeyError => true | _ => false end.

Definition is_OSError (e : Exn) : bool :=
  match e with OSError _ => true | _ => false end.

(** [switch_to_user(username)] *)
Definition switch_to_user (username : string) : Py Process bool :=
  old_uid ← os_getuid;
  old_gid ← os_getgid;
  found ← try_except
            (user ← lift (getpwnam username); mret (Some user))
            is_KeyError
            (λ _, _ ← log ERROR "Could not find user %s" [ArgStr username];
                  mret None);
  match found with
  | None => mret false
  | Some user =>
      if old_uid =? pw_uid user then
        _ ← log DEBUG "Already running as uid/gid %d/%d." [ArgInt old_uid; ArgInt old_gid];
        mret true
      else
        switched ← try_except
          (_ ← syscall (Setgid (pw_gid user));
           let gids := member_gids username in
           _ ← match gids with
               | [] => mret tt
               | _ :: _ => syscall (Setgroups gids)
               end;
           _ ← syscall (Setuid (pw_uid user));
           mret true)
          is_OSError
          (λ error,
             _ ← log ERROR "Failed changing uid/gid from %d/%d to %d/%d (%s)"
                   [ArgInt old_uid; ArgInt old_gid;
                    ArgInt (pw_uid user); ArgInt (pw_gid user); ArgExn error];
             mret false);
        match switched with
        | true =>
            _ ← log INFO "Dropped privileges to user %s" [ArgStr username];
            _ ← log DEBUG "uid/gid changed from %d/%d to %d/%d."
                  [ArgInt old_uid; ArgInt old_gid;
                   ArgInt (pw_uid user); ArgInt (pw_gid user)];
            mret true
        | false => mret false
        end
  end.

End Privileges.

(** *** Rescheduling the state dump *)

(** A job of the scheduler: the period of its interval trigger and its next
    run time ([None] while the job is paused). *)
Record Job : Type := mkJob {
  interval : Z;
  next_run_time : option Z
}.

(** [scheduler.get_job(job_id=...)]: [None] when there is no such job. *)
Definition get_job (job_id : string) : Py (gmap string Job) (option Job) :=
  jobs ← get_heap;
  mret (jobs !! job_id).

(** [job.modify(next_run_time=t)] on the job stored under [job_id]. *)
Definition job_modify (job_id : string) (t : Z) : Py (gmap string Job) unit :=
  jobs ← @get_heap (gmap string Job);
  put_heap (alter (λ j, mkJob (interval j) (Some t)) job_id jobs).

(** [reschedule_dump_state(log_msg)], with [now] the reading of the clock.
    Reading an attribute of [None] raises [AttributeError]; ordering [None]
    against a [datetime] raises [TypeError]. *)
Definition reschedule_dump_state (now : Z) (log_msg : string)
  : Py (gmap string Job) unit :=
  job ← get_job STATE_DUMP_JOB_ID;
  let next_run := now + MINIMUM_STATE_DUMP_INTERVAL in
  match job with
  | None => raise AttributeError
  | Some j =>
      match next_run_time j with
      | None => raise TypeError
      | Some scheduled =>
          if next_run <? scheduled then
            _ ← log DEBUG "%s, Rescheduling state dump from %s to %s"
                  [ArgStr log_msg; ArgTime scheduled; ArgTime next_run];
            job_modify STATE_DUMP_JOB_ID next_run
          else mret tt
      end
  end.

(** The part of [Event] the observers read. *)
Record Event : Type := mkEvent { event_id : Z }.

(** [reschedule_dump_state_on_commit(new_event, old_event)] *)
Definition reschedule_dump_state_on_commit
    (now : Z) (new_event : Event) (old_event : option Event)
  : Py (gmap string Job) unit :=
  reschedule_dump_state now ("event " +:+ pretty (event_id new_event) +:+ " committed").

(** [reschedule_dump_state_on_pm_change()] *)
Definition reschedule_dump_state_on_pm_change (now : Z) : Py (gmap string Job) unit :=
  reschedule_dump_state now "planned maintenances changed".

(** A mutation notification, as delivered to one of the two observers. *)
Inductive Notification : Type :=
  | Committed (new_event : Event) (old_event : option Event)
  | MaintenanceChanged.

Definition notify (now : Z) (n : Notification) : Py (gmap string Job) unit :=
  match n with
  | Committed new_event old_event => reschedule_dump_state_on_commit now new_event old_event
  | MaintenanceChanged => reschedule_dump_state_on_pm_change now
  end.

(** Notifications delivered one after the other, each at its own time. *)
Fixpoint notify_all (ns : list (Z * Notification)) : Py (gmap string Job) unit :=
  match ns with
  | [] => mret tt
  | (now, n) :: rest => _ ← notify now n; notify_all rest
  end.

(** *** Counting reachable objects *)

Section Reachable.

(** The objects that the garbage collector tracks ([gc.get_objects()]) and
    [isinstance] on them; a class is known by its name. *)
Variable Object : Type.
Variable gc_get_objects : list Object.
Variable isinstance : Object → string → bool.

(** [counts[t] += 1] on a [defaultdict(int)]: a missing key counts as 0. *)
Definition increment (t : string) (counts : gmap string nat) : gmap string nat :=
  <[t := S (default 0%nat (counts !! t))]> counts.

(** [_count_reachable_objects] with the positional arguments [types]: one
    pass over the objects, and for each object one pass over the types. *)
Definition _count_reachable_objects (types : list string) : gmap string nat :=
  foldl (λ counts obj,
           foldl (λ counts t, if isinstance obj t then increment t counts else counts)
                 counts types)
        ∅ gc_get_objects.

End Reachable.

(** *** Start-up *)

(** [errno.EPERM] and [errno.EACCES] *)
Definition EPERM : Z := 1.
Definition EACCES : Z := 13.

(** [except PermissionError]: Python raises the [OSError]s with errno
    [EPERM] or [EACCES] as [PermissionError]. *)
Definition is_PermissionError (e : Exn) : bool :=
  match e with
  | OSError errno => (errno =? EPERM) || (errno =? EACCES)
  | _ => false
  end.

(** An event loop, known by its identity. *)
Abbreviation Loop := nat (only parsing).

(** The callables that are handed to the scheduler. *)
Inductive Callable : Type :=
  | load_and_schedule_polldevs
  | dump_state_to_file
  | update_pm_states
  | age_flapping_states
  | delete_expired_events
  | log_snmp_session_stats
  | loop_stop (loop : Loop).

Inductive JobArg : Type :=
  | FileArg (name : string)
  | StateArg
  | PolldevsArg.

(** The trigger of a job as [add_job] is given it: ["interval"] with its
    [minutes] or [seconds], or ["date"] with its [run_date]. *)
Inductive Trigger : Type :=
  | IntervalMinutes (minutes : Z)
  | IntervalSeconds (seconds : Z)
  | DateTrigger (run_date : Z).

(** A naive [datetime] is counted in microseconds since [datetime.min], the
    first instant of year 1; [datetime.max] is the last microsecond of year
    9999.  A [timedelta] holds between -999999999 and 999999999 days. *)
Definition DATETIME_MAX : Z := 3652059 * 86400 * 1000000 - 1.
Definition TIMEDELTA_MIN : Z := -999999999 * 86400 * 1000000.
Definition TIMEDELTA_MAX : Z := 1000000000 * 86400 * 1000000 - 1.

(** [timedelta(seconds=n)] for an [int]: [OverflowError] when the number of
    days is out of range. *)
Definition timedelta (seconds : Z) : Outcome Z :=
  let delta := timedelta_seconds seconds in
  if (TIMEDELTA_MIN <=? delta) && (delta <=? TIMEDELTA_MAX) then Return delta
  else Raise OverflowError.

(** [t + delta] on a [datetime]: [OverflowError] when the date is out of
    range. *)
Definition datetime_add (t delta : Z) : Outcome Z :=
  let sum := t + delta in
  if (0 <=? sum) && (sum <=? DATETIME_MAX) then Return sum
  else Raise OverflowError.

(** The keyword arguments of one [scheduler.add_job] call. *)
Record JobRequest : Type := mkJobRequest {
  func : Callable;
  trigger : Trigger;
  job_args : list JobArg;
  job_id : option string;
  first_run_time : option Z
}.

Inductive Observer : Type :=
  | on_commit
  | on_pm_change.

(** The calls that start-up makes on its collaborators, in the order it
    makes them. *)
Inductive Call : Type :=
  | BasicConfig (l : Level)
  | ImportSnmpBackend (name : string)
  | InitBackend
  | ImportTrapBackend (name : option string)
  | LoadState (file : string)
  | TrapReceiver (port : Z) (loop : Loop)
  | AddCommunity (name : string)
  | AutoSubscribeObservers
  | TrapOpen
  | SchedulerStart
  | AddJob (request : JobRequest)
  | AddEventObserver (o : Observer)
  | AddPmObserver (o : Observer)
  | ZinoServer (loop : Loop)
  | Serve
  | RunForever (loop : Loop).

(** How [loop.run_forever()] comes back: the loop was stopped, a
    [KeyboardInterrupt] arrived, or something else was raised. *)
Inductive LoopExit : Type :=
  | LoopStopped
  | LoopInterrupted
  | LoopRaised (e : Exn).

Section Startup.

(** The [logging] dictionary of the configuration, and
    [logging.config.dictConfig] on it: [Some error] when it raises
    [ValueError(error)]. *)
Variable Logging : Type.
Variable dictConfig : Logging → option string.

(** The fields of [state.Configuration] that start-up reads. *)
Record Configuration : Type := mkConfiguration {
  logging : Logging;
  authentication_file : string;
  snmp_backend : string;
  persistence_file : string;
  persistence_period : Z;
  polling_file : string;
  polling_period : Z
}.

(** The daemon during start-up: [state.config], the identity of the process
    with its system calls, the calls made on collaborators, and how often
    the clock was read. *)
Record Daemon : Type := mkDaemon {
  state_config : Configuration;
  os_process : Process;
  calls : list Call;
  clock_reads : nat
}.

(** The collaborators whose answers start-up depends on. *)
Variable read_configuration : string → option string → Outcome Configuration.
Variable file_is_world_readable : string → Outcome bool.
Variable passwd : list struct_passwd.
Variable group : list struct_group.
Variable kernel : Identity → Syscall → option Z.
Variable trap_open : Identity → Z → Outcome unit.
Variable get_event_loop : Loop.
Variable run_forever : Loop → LoopExit.
Variable clock : nat → Z.
Variable FLAP_DECREMENT_INTERVAL_SECONDS : Z.

(** A call on a collaborator whose exceptions start-up does not handle: it
    is recorded and taken to return. *)
Definition call (c : Call) : Py Daemon unit :=
  d ← get_heap;
  put_heap (mkDaemon (state_config d) (os_process d) (calls d ++ [c]) (clock_reads d)).

(** [datetime.now()]: the next reading of the clock. *)
Definition datetime_now : Py Daemon Z :=
  d ← get_heap;
  _ ← put_heap (mkDaemon (state_config d) (os_process d) (calls d) (S (clock_reads d)));
  mret (clock (clock_reads d)).

(** Run a function that works on the process inside the daemon. *)
Definition in_process {A : Type} (m : Py Process A) : Py Daemon A :=
  λ w,
    match m (mkWorld (os_process (heap w)) (logged w)) with
    | (r, w') =>
        (r, mkWorld (mkDaemon (state_config (heap w)) (heap w')
                       (calls (heap w)) (clock_reads (heap w)))
                    (logged w'))
    end.

(** [apply_logging_config(logging_config)] *)
Definition apply_logging_config {S : Type} (logging_config : Logging) : Py S unit :=
  match dictConfig logging_config with
  | None => mret tt
  | Some error =>
      _ ← log FATAL ("Invalid logging configuration: " +:+ error) [];
      sys_exit 1
  end.

(** [setup_initial_job_schedule(loop, args)].  The date of the stop job is
    computed before [add_job] is called, so an [OverflowError] of that
    computation leaves the job out. *)
Definition setup_initial_job_schedule (loop : Loop) (args : Namespace) : Py Daemon unit :=
  _ ← call SchedulerStart;
  d ← get_heap;
  now ← datetime_now;
  _ ← call (AddJob (mkJobRequest load_and_schedule_polldevs
                      (IntervalMinutes (polling_period (state_config d)))
                      [FileArg (polling_file (state_config d))] None (Some now)));
  _ ← call (AddJob (mkJobRequest dump_state_to_file
                      (IntervalMinutes (persistence_period (state_config d)))
                      [FileArg (persistence_file (state_config d))]
                      (Some STATE_DUMP_JOB_ID) None));
  now ← datetime_now;
  _ ← call (AddJob (mkJobRequest update_pm_states
                      (IntervalMinutes 1)
                      [StateArg] None (Some now)));
  now ← datetime_now;
  _ ← call (AddJob (mkJobRequest age_flapping_states
                      (IntervalSeconds FLAP_DECREMENT_INTERVAL_SECONDS)
                      [StateArg; PolldevsArg] None (Some now)));
  _ ← call (AddEventObserver on_commit);
  _ ← call (AddPmObserver on_pm_change);
  _ ← call (AddJob (mkJobRequest delete_expired_events
                      (IntervalMinutes 30) [] None None));
  _ ← call (AddJob (mkJobRequest log_snmp_session_stats
                      (IntervalMinutes 1) [] None None));
  match stop_in args with
  | Some seconds =>
      if seconds =? 0 then mret tt
      else
        _ ← log INFO "Instructed to stop in %s seconds" [ArgInt seconds];
        now ← datetime_now;
        delta ← lift (timedelta seconds);
        run_date ← lift (datetime_add now delta);
        call (AddJob (mkJobRequest (loop_stop loop) (DateTrigger run_date) [] None None))
  | None => mret tt
  end.

(** [init_event_loop(args, loop)] *)
Definition init_event_loop (args : Namespace) (loop : option Loop) : Py Daemon bool :=
  let loop := default get_event_loop loop in
  _ ← (if negb (trap_port args =? 0) then
         _ ← call (ImportTrapBackend None);
         _ ← call (TrapReceiver (trap_port args) loop);
         _ ← call (AddCommunity "public");
         _ ← call (AddCommunity "secret");
         _ ← call AutoSubscribeObservers;
         try_except
           (_ ← call TrapOpen;
            d ← get_heap;
            lift (trap_open (identity (os_process d)) (trap_port args)))
           is_PermissionError
           (λ _,
              _ ← log FATAL
                    "Permission denied on UDP port %s. Use --trap-port to specify unprivileged port, or run as root"
                    [ArgInt (trap_port args)];
              sys_exit EACCES)
       else mret tt);
  _ ← (if arg_truthy (user args) then
         switched ← in_process
                      (switch_to_user passwd group kernel (default ""%string (user args)));
         match switched with
         | true | false => mret tt
         end
       else mret tt);
  _ ← setup_initial_job_schedule loop args;
  _ ← call (ZinoServer loop);
  _ ← call Serve;
  _ ← call (RunForever loop);
  match run_forever loop with
  | LoopStopped => mret true
  | LoopInterrupted => mret true
  | LoopRaised (SystemExit _) => mret true
  | LoopRaised e => raise e
  end.

(** [main()], given the arguments that [parse_args] returned.  [_log.fatal(e)]
    logs the exception as the message; the record keeps it as the one
    argument of the format [%s]. *)
Definition main (args : Namespace) : Py Daemon unit :=
  _ ← call (BasicConfig (if debug args then DEBUG else INFO));
  config ← load_config Configuration read_configuration args;
  _ ← match config with
      | Some c =>
          d ← get_heap;
          put_heap (mkDaemon c (os_process d) (calls d) (clock_reads d))
      | None => mret tt
      end;
  d ← get_heap;
  _ ← apply_logging_config (logging (state_config d));
  _ ← try_except
        (d ← get_heap;
         let secrets_file := authentication_file (state_config d) in
         readable ← lift (file_is_world_readable secrets_file);
         match readable with
         | true =>
             log WARNING
               ("Secrets file " +:+ secrets_file
                  +:+ " is world-readable. Please ensure that it is only readable by the user that runs the zino process.")
               []
         | false => mret tt
         end)
        is_OSError
        (λ e, _ ← log FATAL "%s" [ArgExn e]; sys_exit 1);
  _ ← match config with
      | Some c =>
          _ ← call (ImportSnmpBackend (snmp_backend c));
          _ ← call InitBackend;
          call (ImportTrapBackend (Some (snmp_backend c)))
      | None => raise AttributeError
      end;
  d ← get_heap;
  _ ← call (LoadState (persistence_file (state_config d)));
  started ← init_event_loop args None;
  match started with
  | true | false => mret tt
  end.

End Startup.

End Zino.

(** * Specification vocabulary

    The predicates and the sample data that the properties below are stated
    with. *)

Section SnmpVocabulary.

Import Snmp.

(** Every engine stored in a thread's slot was constructed earlier, and no
    engine sits in the slots of two threads. *)
Definition confined (l : Local) : Prop :=
  (∀ t e, snmp_engine l !! t = Some e → (e < constructed l)%nat) ∧
  (∀ t1 t2 e, snmp_engine l !! t1 = Some e → snmp_engine l !! t2 = Some e → t1 = t2).

(** The states of the cache that calls of [_get_engine], from whatever
    threads, lead to after the module was imported. *)
Inductive reachable : Local → Prop :=
  | reachable_fresh : reachable fresh_local
  | reachable_call me w e w' :
      reachable (heap w) →
      _get_engine me w = (Return e, w') →
      reachable (heap w').


(** The response that [get] receives when [_get_engine] hands it [engine]. *)
Definition answer
    (getCmd : Engine → CommunityData → UdpTransportTarget → list ObjectType → Response)
    (engine : Engine) (self : SNMP) (object : list ObjArg) : Response :=
  getCmd engine
    (mkCommunityData (community (device self)) (mp_model self))
    (mkUdpTransportTarget (address (device self)) (port (device self)))
    [(mkObjectIdentity object, Null)].

(** A session for a device without high-capacity counters, the object it
    asks for, and the cache before any engine was constructed. *)
Definition sample_session : SNMP :=
  mkSNMP (mkPollDevice "192.0.2.7" 161 "public" false).

Definition sysUpTime : list ObjArg := [OStr "SNMPv2-MIB"; OStr "sysUpTime"; OInt 0].

Definition fresh_world : World Local := mkWorld fresh_local [].

(** A device that answers with neither errors nor variable bindings. *)
Definition empty_answer
    (engine : Engine) (auth : CommunityData) (target : UdpTransportTarget)
    (query : list ObjectType) : Response :=
  mkResponse None (mkErrorStatus 0 "noError") 0 [].

(** A device that answers the query for one object with two variable
    bindings, reports [noSuchName] and blames the second of them. *)
Definition noSuchName_at_2
    (engine : Engine) (auth : CommunityData) (target : UdpTransportTarget)
    (query : list ObjectType) : Response :=
  mkResponse None (mkErrorStatus 2 "noSuchName") 2
    [(mkObjectIdentity sysUpTime, Null);
     (mkObjectIdentity [OStr "SNMPv2-MIB"; OStr "sysName"; OInt 0], Null)].

(** The cache after thread 3, thread 5 and thread 3 again asked for their
    engine, and the cache in between. *)
Definition one_thread_served : World Local :=
  mkWorld (mkLocal (<[3%nat := 0%nat]> ∅) 1) [].

Definition two_threads_served : World Local :=
  mkWorld (mkLocal (<[5%nat := 1%nat]> (<[3%nat := 0%nat]> ∅)) 2) [].

(** A device that answers the query with two bindings. *)
Definition two_bindings
    (engine : Engine) (auth : CommunityData) (target : UdpTransportTarget)
    (query : list ObjectType) : Response :=
  mkResponse None (mkErrorStatus 0 "noError") 0
    [(mkObjectIdentity sysUpTime, Integer 4711);
     (mkObjectIdentity [OStr "SNMPv2-MIB"; OStr "sysName"; OInt 0], OctetString "gw1")].

(** A request that timed out; the rest of the tuple is whatever it is. *)
Definition timed_out
    (engine : Engine) (auth : CommunityData) (target : UdpTransportTarget)
    (query : list ObjectType) : Response :=
  mkResponse (Some "No SNMP response received before timeout"%string)
    (mkErrorStatus 5 "genErr") 9 [].

(** A device that reports [noSuchName] for the first object of the query. *)
Definition noSuchName_at_1
    (engine : Engine) (auth : CommunityData) (target : UdpTransportTarget)
    (query : list ObjectType) : Response :=
  mkResponse None (mkErrorStatus 2 "noSuchName") 1 [].

End SnmpVocabulary.

Section ZinoVocabulary.

Import Zino.

(** A run that ended the process with a fatal diagnostic: one [FATAL] record
    was logged on top of the log of [before], and [sys.exit(1)] was called. *)
Definition fatal_exit {S A : Type} (run : Outcome A * World S) (before : World S) : Prop :=
  fst run = Raise (SystemExit 1) ∧
  heap (snd run) = heap before ∧
  ∃ text, logged (snd run) = logged before ++ [mkLogRecord FATAL text []].

(** The identity-changing calls that a switch to [user] makes when every
    one of them is accepted; [gids] are the groups that list the user as a
    member, and [setgroups] is called only when there is one. *)
Definition identity_calls (user : struct_passwd) (gids : list Z) : list Syscall :=
  [Setgid (pw_gid user)]
    ++ match gids with
       | [] => []
       | _ :: _ => [Setgroups gids]
       end
    ++ [Setuid (pw_uid user)].

Definition accepted (c : Syscall) : Syscall * option Z := (c, None).

(** The order the specification asks for: wherever the user id is set, the
    group id and the supplementary groups [gids] were set, successfully and
    in that order, before it. *)
Definition groups_before_uid (gids : list Z) (calls : list (Syscall * option Z)) : Prop :=
  ∀ k u r, calls !! k = Some (Setuid u, r) →
    ∃ i j g, (i < j < k)%nat ∧
      calls !! i = Some (Setgid g, None) ∧
      calls !! j = Some (Setgroups gids, None).

(** The scheduler after [job.modify(next_run_time=t)] on the dump job. *)
Definition dump_moved_to (t : Z) (jobs : gmap string Job) : gmap string Job :=
  alter (λ j, mkJob (interval j) (Some t)) STATE_DUMP_JOB_ID jobs.

(** The arguments of a start without any command-line option. *)
Definition no_arguments : Namespace := mkNamespace None None false None 162 None.

(** A start with [--config-file /etc/zino.toml]. *)
Definition named_config : Namespace :=
  mkNamespace None (Some "/etc/zino.toml"%string) false None 162 None.

(** No configuration file can be opened (errno 2, [ENOENT]). *)
Definition no_such_file (name : string) (pollfile : option string) : Outcome unit :=
  Raise (OSError 2).

(** A small system: [zino] is a member of two groups, [lone] of none; the
    kernel lets uid 0 change identity and refuses everybody else with errno
    1 ([EPERM]). *)
Definition sample_passwd : list struct_passwd :=
  [mkPasswd "root" 0 0; mkPasswd "zino" 1001 1001; mkPasswd "lone" 1002 1002].

Definition sample_group : list struct_group :=
  [mkGroup "root" 0 []; mkGroup "zino" 1001 [];
   mkGroup "adm" 4 ["zino"; "syslog"]%string; mkGroup "snmp" 116 ["zino"%string]].

Definition root_only (i : Identity) (c : Syscall) : option Z :=
  if uid i =? 0 then None else Some 1.

Definition root_process : World Process :=
  mkWorld (mkProcess (mkIdentity 0 0 [0]) []) [].

(** A scheduler whose dump job runs every five minutes, next in 60 seconds. *)
Definition dump_job : Job := mkJob (timedelta_seconds 300) (Some (timedelta_seconds 60)).

Definition sample_scheduler : World (gmap string Job) :=
  mkWorld {[ STATE_DUMP_JOB_ID := dump_job ]} [].

(** A start with [--config-file ""]. *)
Definition empty_config_name : Namespace :=
  mkNamespace None (Some ""%string) false None 162 None.

(** Every configuration file can be read. *)
Definition any_file (name : string) (pollfile : option string) : Outcome unit :=
  Return tt.

(** A kernel that lets the groups be changed and refuses [setuid] with errno
    1 ([EPERM]). *)
Definition no_setuid (i : Identity) (c : Syscall) : option Z :=
  match c with
  | Setuid _ => Some 1
  | _ => None
  end.

(** The daemon already running as [zino], but with the primary group 100. *)
Definition zino_process : World Process :=
  mkWorld (mkProcess (mkIdentity 1001 100 [100]) []) [].

(** A scheduler without the dump job, and one whose dump job is paused. *)
Definition empty_scheduler : World (gmap string Job) := mkWorld ∅ [].

Definition paused_scheduler : World (gmap string Job) :=
  mkWorld {[ STATE_DUMP_JOB_ID := mkJob (timedelta_seconds 300) None ]} [].

(** How many of the objects are instances of class [t], and how often [t]
    is listed among the classes to count. *)
Definition instances {Object : Type}
    (objects : list Object) (isinstance : Object → string → bool) (t : string) : nat :=
  length (List.filter (λ obj, isinstance obj t) objects).

Definition listed (types : list string) (t : string) : nat :=
  length (List.filter (String.eqb t) types).

(** No key of the dictionary holds a zero. *)
Definition positive_counts (counts : gmap string nat) : Prop :=
  ∀ t n, counts !! t = Some n → (0 < n)%nat.

(** Six objects, of which the even ones are instances of ["Even"] and the
    ones above three of ["Big"]. *)
Definition sample_objects : list nat := [1; 2; 3; 4; 5; 6]%nat.

Definition sample_isinstance (obj : nat) (t : string) : bool :=
  if String.eqb t "Even" then Nat.even obj
  else if String.eqb t "Big" then (3 <? obj)%nat
  else false.

(** The calls of [setup_initial_job_schedule], for the configuration
    [config], the clock read [reads] times before, and the [--stop-in]
    argument. *)
Definition recurring_jobs {Logging : Type} (config : Configuration Logging)
    (clock : nat → Z) (flap_seconds : Z) (reads : nat) : list Call :=
  [SchedulerStart;
   AddJob (mkJobRequest load_and_schedule_polldevs
             (IntervalMinutes (polling_period _ config))
             [FileArg (polling_file _ config)] None (Some (clock reads)));
   AddJob (mkJobRequest dump_state_to_file
             (IntervalMinutes (persistence_period _ config))
             [FileArg (persistence_file _ config)] (Some STATE_DUMP_JOB_ID) None);
   AddJob (mkJobRequest update_pm_states
             (IntervalMinutes 1)
             [StateArg] None (Some (clock (S reads))));
   AddJob (mkJobRequest age_flapping_states
             (IntervalSeconds flap_seconds)
             [StateArg; PolldevsArg] None (Some (clock (S (S reads)))));
   AddEventObserver on_commit;
   AddPmObserver on_pm_change;
   AddJob (mkJobRequest delete_expired_events
             (IntervalMinutes 30) [] None None);
   AddJob (mkJobRequest log_snmp_session_stats
             (IntervalMinutes 1) [] None None)].

(** The [--stop-in] argument, when it asks for a stop: [None] and 0 do not. *)
Definition stop_after (args : Namespace) : option Z :=
  match stop_in args with
  | Some seconds => if seconds =? 0 then None else Some seconds
  | None => None
  end.

(** Whether the stop date [now + seconds] can be computed: the seconds make
    a [timedelta] and the sum is a [datetime]. *)
Definition representable (now seconds : Z) : bool :=
  (TIMEDELTA_MIN <=? timedelta_seconds seconds)
  && (timedelta_seconds seconds <=? TIMEDELTA_MAX)
  && (0 <=? now + timedelta_seconds seconds)
  && (now + timedelta_seconds seconds <=? DATETIME_MAX).

(** The stop that [args] ask for, if any, has a date that can be computed
    at the fourth reading of the clock. *)
Definition schedulable (clock : nat → Z) (reads : nat) (args : Namespace) : Prop :=
  match stop_after args with
  | Some seconds => representable (clock (S (S (S reads)))) seconds = true
  | None => True
  end.

(** A job with an interval trigger. *)
Definition recurring (r : JobRequest) : Prop :=
  match trigger r with
  | IntervalMinutes _ | IntervalSeconds _ => True
  | DateTrigger _ => False
  end.

Definition stop_job (clock : nat → Z) (reads : nat) (loop : nat) (seconds : Z) : Call :=
  AddJob (mkJobRequest (loop_stop loop)
            (DateTrigger (clock (S (S (S reads))) + timedelta_seconds seconds))
            [] None None).

(** The calls that set up the trap receiver. *)
Definition trap_calls (port : Z) (loop : nat) : list Call :=
  [ImportTrapBackend None; TrapReceiver port loop;
   AddCommunity "public"; AddCommunity "secret";
   AutoSubscribeObservers; TrapOpen].

(** A call that registers an observer. *)
Definition registers_observer (c : Call) : bool :=
  match c with
  | AddEventObserver _ | AddPmObserver _ => true
  | _ => false
  end.

(** The daemon with the calls [added] made and the clock read [reads] more
    times. *)
Definition after_calls {Logging : Type} (d : Daemon Logging)
    (added : list Call) (reads : nat) : Daemon Logging :=
  mkDaemon _ (state_config _ d) (os_process _ d) (calls _ d ++ added)
    (clock_reads _ d + reads)%nat.

(** A configuration, a daemon started by root before anything happened,
    and collaborators for it: any logging dictionary is fine, the secrets
    file is not world-readable, only uid 0 may bind the trap port, the loop
    runs until it is stopped, and the clock advances by one per reading. *)
Definition sample_config : Configuration unit :=
  mkConfiguration unit tt "secrets" "pysnmp" "zino-state.json" 5 "polldevs.cf" 1.

Definition sample_daemon : World (Daemon unit) :=
  mkWorld (mkDaemon unit sample_config (mkProcess (mkIdentity 0 0 [0]) []) [] 0%nat) [].

Definition unprivileged_daemon : World (Daemon unit) :=
  mkWorld (mkDaemon unit sample_config (mkProcess (mkIdentity 1001 1001 [4; 116]) []) []
             0%nat) [].

Definition valid_logging (logging_config : unit) : option string := None.

Definition invalid_logging (logging_config : unit) : option string :=
  Some "Unable to configure handler 'console'"%string.

Definition reads_sample_config (name : string) (pollfile : option string)
  : Outcome (Configuration unit) :=
  Return sample_config.

Definition no_config_file (name : string) (pollfile : option string)
  : Outcome (Configuration unit) :=
  Raise (OSError 2).

Definition invalid_config_file (name : string) (pollfile : option string)
  : Outcome (Configuration unit) :=
  Raise InvalidConfigurationError.

Definition secrets_private (name : string) : Outcome bool := Return false.

Definition secrets_missing (name : string) : Outcome bool := Raise (OSError 2).

Definition root_binds (i : Identity) (port : Z) : Outcome unit :=
  if uid i =? 0 then Return tt else Raise (OSError 13).

Definition until_stopped (loop : nat) : LoopExit := LoopStopped.

Definition exits_inside (loop : nat) : LoopExit := LoopRaised (SystemExit 3).

(** A clock that shows the first second of 4 November 2026 and advances by
    a microsecond per reading. *)
Definition ticking (reads : nat) : Z :=
  739923 * 86400 * 1000000 + Z.of_nat reads.

(** Starts of the daemon: with the defaults, with [--trap-port 0 --user
    nosuchuser], and with [--stop-in 30]. *)
Definition unknown_user_arguments : Namespace :=
  mkNamespace None None false None 0 (Some "nosuchuser"%string).

Definition stop_in_30 : Namespace :=
  mkNamespace None None false (Some 30) 162 None.

(** A start with [--stop-in 999999999999], more seconds than are left
    before the end of year 9999. *)
Definition stop_in_far_future : Namespace :=
  mkNamespace None None false (Some 999999999999) 162 None.

(** What the loop's exit makes of [init_event_loop]: [True], also for a
    [KeyboardInterrupt] or a [SystemExit] raised inside the loop, or the
    exception that came out of the loop. *)
Definition loop_result (exit : LoopExit) : Outcome bool :=
  match exit with
  | LoopStopped | LoopInterrupted | LoopRaised (SystemExit _) => Return true
  | LoopRaised e => Raise e
  end.

(** The daemon and the log once [init_event_loop] got to [run_forever],
    with [process] and [log] what the optional switch of user left. *)
Definition started {Logging : Type} (d : Daemon Logging)
    (process : Process) (log : list LogRecord)
    (clock : nat → Z) (flap_seconds : Z) (loop : nat) (args : Namespace)
  : World (Daemon Logging) :=
  mkWorld
    (mkDaemon _ (state_config _ d) process
       (calls _ d
          ++ (if trap_port args =? 0 then [] else trap_calls (trap_port args) loop)
          ++ recurring_jobs (state_config _ d) clock flap_seconds (clock_reads _ d)
          ++ match stop_after args with
             | Some seconds => [stop_job clock (clock_reads _ d) loop seconds]
             | None => []
             end
          ++ [ZinoServer loop; Serve; RunForever loop])
       (clock_reads _ d + match stop_after args with Some _ => 4 | None => 3 end)%nat)
    (log ++ match stop_after args with
            | Some seconds =>
                [mkLogRecord INFO "Instructed to stop in %s seconds" [ArgInt seconds]]
            | None => []
            end).

(** [setup_initial_job_schedule], [init_event_loop] and [main] on the sample
    system. *)
Definition sample_setup :=
  setup_initial_job_schedule unit ticking 300.

Definition sample_init (run_forever : nat → LoopExit) :=
  init_event_loop unit sample_passwd sample_group root_only root_binds 0%nat
    run_forever ticking 300.

Definition sample_main
    (dictConfig : unit → option string)
    (read_configuration : string → option string → Outcome (Configuration unit))
    (file_is_world_readable : string → Outcome bool) :=
  main unit dictConfig read_configuration file_is_world_readable
    sample_passwd sample_group root_only root_binds 0%nat until_stopped ticking 300.

End ZinoVocabulary.

(** * Properties *)

(** Unfolding the monad. *)
Ltac py_unfold :=
  unfold mbind, mret, Py_bind, Py_ret, try_except, lift, raise, sys_exit,
    log, get_heap, put_heap in *.

Ltac py_step := py_unfold; cbn [heap logged fst snd] in *.

(** ** The session cache and the query path of [zino/snmp.py] *)

Section SnmpProperties.

Import Snmp.

Lemma get_engine_cached me w e :
  snmp_engine (heap w) !! me = Some e →
  _get_engine me w = (Return e, w).
Proof.
  intros Hslot. unfold _get_engine. py_step. by rewrite Hslot.
Qed.

Lemma get_engine_constructs me w :
  snmp_engine (heap w) !! me = None →
  _get_engine me w =
    (Return (constructed (heap w)),
     mkWorld (mkLocal (<[me := constructed (heap w)]> (snmp_engine (heap w)))
                      (S (constructed (heap w))))
             (logged w)).
Proof.
  intros Hslot. unfold _get_engine, SnmpEngine. py_step. by rewrite Hslot.
Qed.

(** A call always returns, stores what it returns, keeps the other slots
    and the log, and keeps the cache confined. *)
Lemma get_engine_returns me w :
  ∃ e w',
    _get_engine me w = (Return e, w') ∧
    snmp_engine (heap w') !! me = Some e ∧
    logged w' = logged w ∧
    (∀ t e', snmp_engine (heap w) !! t = Some e' →
             snmp_engine (heap w') !! t = Some e') ∧
    (confined (heap w) → confined (heap w')).
Proof.
  destruct (snmp_engine (heap w) !! me) as [e|] eqn:Hslot.
  - exists e, w. split; [by apply get_engine_cached|]. auto.
  - eexists _, _. split; [by apply get_engine_constructs|].
    cbn [heap logged snmp_engine constructed].
    split; [by rewrite lookup_insert_eq|]. split; [done|]. split.
    + intros t e' Ht. rewrite lookup_insert_ne; [done|]. congruence.
    + intros [Hold Hinj]. split; cbn [snmp_engine constructed].
      * intros t e'. rewrite lookup_insert. case_decide.
        -- intros [= <-]. lia.
        -- intros Ht. apply Hold in Ht. lia.
      * intros t1 t2 e'. rewrite !lookup_insert.
        repeat case_decide; subst; try done.
        -- intros [= <-] Ht. apply Hold in Ht. lia.
        -- intros Ht [= <-]. apply Hold in Ht. lia.
        -- apply Hinj.
Qed.





(** C7: the SNMP version is 1 (the high-capacity variant) exactly when the
    device's [hcounters] flag is set and 0 (the legacy variant) exactly when
    it is not, and two sessions whose devices agree on the flag get the same
    version. *)
Theorem mp_model_by_hcounters :
  (∀ self, mp_model self = 1 ↔ hcounters (device self) = true) ∧
  (∀ self, mp_model self = 0 ↔ hcounters (device self) = false) ∧
  (∀ self other,
      hcounters (device self) = hcounters (device other) →
      mp_model self = mp_model other).
Proof.
  unfold mp_model. repeat split; intros *.
  - by destruct (hcounters _).
  - by destruct (hcounters _).
  - by destruct (hcounters _).
  - by destruct (hcounters _).
  - by intros ->.
Qed.

Section Exchange.

Variable getCmd :
  Engine → CommunityData → UdpTransportTarget → list ObjectType → Response.

Lemma get_unfold me self object w e w1 :
  _get_engine me w = (Return e, w1) →
  get getCmd me self object w =
    let r := answer getCmd e self object in
    match error_indication r with
    | Some indication =>
        (Return None, mkWorld (heap w1) (logged w1 ++ [mkLogRecord ERROR indication []]))
    | None =>
        if negb (status_code (error_status r) =? 0) then
          match culprit [(mkObjectIdentity object, Null)] (error_index r) with
          | Return who =>
              (Return None,
               mkWorld (heap w1)
                 (logged w1 ++
                    [mkLogRecord ERROR "%s at %s"
                       [ArgStr (prettyPrint (error_status r)); who]]))
          | Raise x => (Raise x, w1)
          end
        else
          match var_binds r with
          | var_bind :: _ => (Return (Some (snd var_bind)), w1)
          | [] => (Return None, w1)
          end
    end.
Proof.
  intros Hrun. unfold get, answer. py_step. rewrite Hrun. cbn zeta.
  destruct (error_indication _); [done|].
  destruct (negb _).
  - by destruct (culprit _ _).
  - by destruct (var_binds _).
Qed.

(** A transport failure is logged and answered with [None]. *)
Lemma get_error_indication me self object w e w1 indication :
  _get_engine me w = (Return e, w1) →
  error_indication (answer getCmd e self object) = Some indication →
  get getCmd me self object w =
    (Return None,
     mkWorld (heap w1) (logged w1 ++ [mkLogRecord ERROR indication []])).
Proof.
  intros Hrun Hind. rewrite (get_unfold _ _ _ _ _ _ Hrun). cbn zeta. by rewrite Hind.
Qed.

(** The offending object of a single-object query: unknown for index 0, the
    queried object for index 1, and no answer at all for any other index. *)
Lemma culprit_single (o : ObjectIdentity) (v : Value) (i : Z) :
  culprit [(o, v)] i =
    if i =? 0 then Return (ArgStr "?")
    else if i =? 1 then Return (ArgOid o)
    else Raise IndexError.
Proof.
  unfold culprit, list_getitem. cbn [length].
  destruct (Z.eqb_spec i 0) as [->|H0]; [done|].
  destruct (Z.eqb_spec i 1) as [->|H1]; [done|].
  repeat match goal with
    | |- context [?a <? ?b] => destruct (Z.ltb_spec a b)
    | |- context [?a <=? ?b] => destruct (Z.leb_spec a b)
    end; cbn [orb]; try done; lia.
Qed.

(** A device-reported error with error index 0 or 1 is logged and answered
    with [None]: index 1 names the queried object, index 0 names nothing. *)
Lemma get_error_status_in_range me self object w e w1 :
  _get_engine me w = (Return e, w1) →
  error_indication (answer getCmd e self object) = None →
  status_code (error_status (answer getCmd e self object)) ≠ 0 →
  0 ≤ error_index (answer getCmd e self object) ≤ 1 →
  get getCmd me self object w =
    (Return None,
     mkWorld (heap w1)
       (logged w1 ++
          [mkLogRecord ERROR "%s at %s"
             [ArgStr (prettyPrint (error_status (answer getCmd e self object)));
              if error_index (answer getCmd e self object) =? 0 then ArgStr "?"
              else ArgOid (mkObjectIdentity object)]])).
Proof.
  intros Hrun Hind Hstatus Hidx. rewrite (get_unfold _ _ _ _ _ _ Hrun). cbn zeta.
  rewrite Hind. destruct (Z.eqb_spec (status_code (error_status (answer getCmd e self object))) 0);
    [done|]. cbn [negb]. rewrite culprit_single.
  destruct (Z.eqb_spec (error_index (answer getCmd e self object)) 0); [done|].
  destruct (Z.eqb_spec (error_index (answer getCmd e self object)) 1); [done|]. lia.
Qed.

(** With any other error index the query raises [IndexError]: nothing is
    logged and nothing is returned. *)
Lemma get_error_status_out_of_range me self object w e w1 :
  _get_engine me w = (Return e, w1) →
  error_indication (answer getCmd e self object) = None →
  status_code (error_status (answer getCmd e self object)) ≠ 0 →
  ¬ 0 ≤ error_index (answer getCmd e self object) ≤ 1 →
  get getCmd me self object w = (Raise IndexError, w1).
Proof.
  intros Hrun Hind Hstatus Hidx. rewrite (get_unfold _ _ _ _ _ _ Hrun). cbn zeta.
  rewrite Hind. destruct (Z.eqb_spec (status_code (error_status (answer getCmd e self object))) 0);
    [done|]. cbn [negb]. rewrite culprit_single.
  destruct (Z.eqb_spec (error_index (answer getCmd e self object)) 0); [lia|].
  destruct (Z.eqb_spec (error_index (answer getCmd e self object)) 1); [lia|]. done.
Qed.

(** C10: when the exchange reports neither an error indication nor an error
    status and the response has no variable bindings, [get] returns [None]:
    it raises nothing and logs nothing. *)
Theorem get_without_var_binds me self object w e w1 :
  _get_engine me w = (Return e, w1) →
  error_indication (answer getCmd e self object) = None →
  status_code (error_status (answer getCmd e self object)) = 0 →
  var_binds (answer getCmd e self object) = [] →
  get getCmd me self object w = (Return None, w1) ∧ logged w1 = logged w.
Proof.
  intros Hrun Hind Hstatus Hbinds. split.
  - rewrite (get_unfold _ _ _ _ _ _ Hrun). cbn zeta.
    by rewrite Hind, Hstatus, Hbinds.
  - destruct (get_engine_returns me w) as (e' & w' & Hrun' & _ & Hlog & _).
    congruence.
Qed.

End Exchange.

(** C8 at a response the code can receive: a device answers the query of
    one object with two variable bindings, reports [noSuchName] and blames
    the second of them.  The index is within the bindings of the response
    and out of range for the query, and [get] raises [IndexError] before it
    logs anything, where the specification has it log the offender as
    unknown and return [None]. *)
Theorem get_error_index_two_raises :
  let r := answer noSuchName_at_2 0%nat sample_session sysUpTime in
  let run := get noSuchName_at_2 7%nat sample_session sysUpTime fresh_world in
  error_indication r = None ∧
  status_code (error_status r) = 2 ∧
  error_index r = 2 ∧
  length (var_binds r) = 2%nat ∧
  fst run = Raise IndexError ∧
  logged (snd run) = [].
Proof. by vm_compute. Qed.


(** A first query from thread 7 to a device that answers with nothing. *)
Lemma get_without_var_binds_witness :
  get empty_answer 7%nat sample_session sysUpTime fresh_world =
    (Return None, mkWorld (mkLocal (<[7%nat := 0%nat]> ∅) 1) []) ∧
  logged (mkWorld (mkLocal (<[7%nat := 0%nat]> ∅) 1) []) = logged fresh_world.
Proof.
  apply (get_without_var_binds empty_answer 7%nat sample_session sysUpTime
           fresh_world 0%nat); reflexivity.
Defined.

End SnmpProperties.

(** ** Bootstrap, privileges and the dump debouncer of [zino/zino.py] *)

Section ZinoProperties.

Import Zino.

(** *** Loading the configuration *)

Section Loading.

Variable Configuration : Type.
Variable read_configuration : string → option string → Outcome Configuration.

Lemma load_config_unfold {S : Type} (args : Namespace) (w : World S) :
  load_config Configuration read_configuration args w =
    match read_configuration (arg_or (config_file args) DEFAULT_CONFIG_FILE)
            (polldevs args) with
    | Return c => (Return (Some c), w)
    | Raise (OSError _) =>
        if arg_truthy (config_file args) then
          (Raise (SystemExit 1),
           mkWorld (heap w)
             (logged w ++
                [mkLogRecord FATAL
                   ("No config file with the name "
                      +:+ default ""%string (config_file args) +:+ " found.") []]))
        else (Return None, w)
    | Raise InvalidConfigurationError =>
        (Raise (SystemExit 1),
         mkWorld (heap w)
           (logged w ++
              [mkLogRecord FATAL
                 ("Configuration file with the name "
                    +:+ arg_or (config_file args) DEFAULT_CONFIG_FILE
                    +:+ " is invalid TOML.") []]))
    | Raise (ValidationError text) =>
        (Raise (SystemExit 1),
         mkWorld (heap w) (logged w ++ [mkLogRecord FATAL text []]))
    | Raise e => (Raise e, w)
    end.
Proof.
  unfold load_config. py_step.
  destruct (read_configuration _ _) as [c|[]]; cbn; try done.
  by destruct (arg_truthy _).
Qed.

(** C4, as the code has it: an invalid configuration file (bad TOML, or
    contents that fail validation) is fatal, and so is a missing or
    unreadable file that was named with [--config-file]: a fatal diagnostic
    is logged and the process exits with code 1.  When no file was named
    and the default file is missing or unreadable, [load_config] logs
    nothing, does not exit and returns [None], and [main] keeps the
    configuration it already has. *)
Theorem load_config_fatal_cases {S : Type} (args : Namespace) (w : World S) :
  let outcome :=
    read_configuration (arg_or (config_file args) DEFAULT_CONFIG_FILE) (polldevs args) in
  let run := load_config Configuration read_configuration args w in
  (outcome = Raise InvalidConfigurationError → fatal_exit run w) ∧
  (∀ text, outcome = Raise (ValidationError text) → fatal_exit run w) ∧
  (∀ errno, outcome = Raise (OSError errno) →
     arg_truthy (config_file args) = true → fatal_exit run w) ∧
  (∀ errno, outcome = Raise (OSError errno) →
     arg_truthy (config_file args) = false →
     run = (Return None, w) ∧
     ∀ current log,
       main_config Configuration read_configuration args (mkWorld current log) =
         (Return None, mkWorld current log)).
Proof.
  intros outcome run. subst run. unfold fatal_exit.
  split; [|split; [|split]]; intros *; rewrite load_config_unfold; fold outcome.
  - intros ->. cbn. eauto.
  - intros ->. cbn. eauto.
  - intros -> ->. cbn. eauto.
  - intros Hout Harg. rewrite Hout, Harg. split; [done|].
    intros current log. unfold main_config. py_step. rewrite load_config_unfold.
    fold outcome. by rewrite Hout, Harg.
Qed.

End Loading.

(** *** Dropping privileges *)

Section Dropping.

Variable passwd : list struct_passwd.
Variable group : list struct_group.
Variable kernel : Identity → Syscall → option Z.

Lemma getpwnam_unknown (username : string) :
  (∀ u, u ∈ passwd → pw_name u ≠ username) →
  getpwnam passwd username = Raise KeyError.
Proof.
  intros Hnone. unfold getpwnam.
  destruct (List.find _ passwd) as [u|] eqn:Hfind; [|done].
  apply List.find_some in Hfind as [Hin Heq].
  apply String.eqb_eq in Heq. apply list_elem_of_In in Hin.
  by destruct (Hnone u Hin).
Qed.

(** C5: for a user name that the user database does not know,
    [switch_to_user] logs the failure and returns [False]; it makes no
    identity-changing system call, and the uid, the gid and the
    supplementary groups of the process stay as they were. *)
Theorem switch_to_user_unknown_user (username : string) (w : World Process) :
  (∀ u, u ∈ passwd → pw_name u ≠ username) →
  ∃ w',
    switch_to_user passwd group kernel username w = (Return false, w') ∧
    syscalls (heap w') = syscalls (heap w) ∧
    identity (heap w') = identity (heap w) ∧
    logged w' =
      logged w ++ [mkLogRecord ERROR "Could not find user %s" [ArgStr username]].
Proof.
  intros Hnone%getpwnam_unknown.
  exists (mkWorld (heap w)
            (logged w ++ [mkLogRecord ERROR "Could not find user %s" [ArgStr username]])).
  split; [|done].
  unfold switch_to_user, os_getuid, os_getgid. py_step. by rewrite Hnone.
Qed.

(** C3, as the code has it: when the target uid differs from the current
    one, [switch_to_user] calls [setgid], then [setgroups] with the ids of
    all groups that list the user as a member, but only when there is such
    a group, then [setuid]; each call is made only after the calls before
    it were accepted, and the first refusal ends the sequence and gives
    [False].  When no group lists the user, [setgroups] is not called and
    the supplementary groups stay as they were. *)
Theorem switch_to_user_call_order
    (username : string) (user : struct_passwd) (w : World Process) :
  getpwnam passwd username = Return user →
  uid (identity (heap w)) ≠ pw_uid user →
  let gids := member_gids group username in
  let plan := identity_calls user gids in
  ∃ switched w' made,
    switch_to_user passwd group kernel username w = (Return switched, w') ∧
    syscalls (heap w') = syscalls (heap w) ++ made ∧
    (if switched
     then made = accepted <$> plan ∧
          identity (heap w') =
            mkIdentity (pw_uid user) (pw_gid user)
              match gids with
              | [] => groups (identity (heap w))
              | _ :: _ => gids
              end
     else ∃ k c errno,
            plan !! k = Some c ∧
            made = (accepted <$> take k plan) ++ [(c, Some errno)]).
Proof.
  intros Hfound Hdiffer gids plan. subst plan.
  apply Z.eqb_neq in Hdiffer.
  unfold switch_to_user, os_getuid, os_getgid, syscall, identity_calls.
  py_step. rewrite Hfound. cbn [heap logged identity syscalls]. rewrite Hdiffer.
  fold gids.
  destruct (kernel (identity (heap w)) (Setgid (pw_gid user))) as [e1|] eqn:Hgid;
    cbn [heap logged identity syscalls is_OSError].
  { eexists false, _, _. split; [done|]. cbn [heap syscalls].
    split; [done|]. by exists 0%nat, (Setgid (pw_gid user)), e1. }
  destruct gids as [|g gids'] eqn:Hgids; cbn [heap logged identity syscalls].
  - destruct (kernel _ (Setuid (pw_uid user))) as [e3|] eqn:Huid;
      cbn [heap logged identity syscalls is_OSError].
    + eexists false, _, _. split; [done|]. cbn [heap syscalls].
      rewrite <- (assoc_L (++)). split; [done|].
      by exists 1%nat, (Setuid (pw_uid user)), e3.
    + eexists true, _, _. split; [done|]. cbn [heap syscalls identity].
      rewrite <- (assoc_L (++)). by split.
  - destruct (kernel _ (Setgroups (g :: gids'))) as [e2|] eqn:Hgroups;
      cbn [heap logged identity syscalls is_OSError].
    { eexists false, _, _. split; [done|]. cbn [heap syscalls].
      rewrite <- (assoc_L (++)). split; [done|].
      by exists 1%nat, (Setgroups (g :: gids')), e2. }
    destruct (kernel _ (Setuid (pw_uid user))) as [e3|] eqn:Huid;
      cbn [heap logged identity syscalls is_OSError].
    + eexists false, _, _. split; [done|]. cbn [heap syscalls].
      rewrite <- !(assoc_L (++)). split; [done|].
      by exists 2%nat, (Setuid (pw_uid user)), e3.
    + eexists true, _, _. split; [done|]. cbn [heap syscalls identity].
      rewrite <- !(assoc_L (++)). by split.
Qed.

End Dropping.

(** *** Debouncing the state dump *)

Lemma reschedule_dump_state_run now log_msg (w : World (gmap string Job)) j scheduled :
  heap w !! STATE_DUMP_JOB_ID = Some j →
  next_run_time j = Some scheduled →
  reschedule_dump_state now log_msg w =
    if now + MINIMUM_STATE_DUMP_INTERVAL <? scheduled then
      (Return tt,
       mkWorld (dump_moved_to (now + MINIMUM_STATE_DUMP_INTERVAL) (heap w))
         (logged w ++
            [mkLogRecord DEBUG "%s, Rescheduling state dump from %s to %s"
               [ArgStr log_msg; ArgTime scheduled;
                ArgTime (now + MINIMUM_STATE_DUMP_INTERVAL)]]))
    else (Return tt, w).
Proof.
  intros Hjob Hnext. unfold reschedule_dump_state, get_job, job_modify. py_step.
  rewrite Hjob, Hnext. by destruct (_ <? _).
Qed.

Lemma notify_run now n (w : World (gmap string Job)) j scheduled :
  heap w !! STATE_DUMP_JOB_ID = Some j →
  next_run_time j = Some scheduled →
  ∃ log',
    notify now n w =
      if now + MINIMUM_STATE_DUMP_INTERVAL <? scheduled then
        (Return tt,
         mkWorld (dump_moved_to (now + MINIMUM_STATE_DUMP_INTERVAL) (heap w)) log')
      else (Return tt, w).
Proof.
  intros Hjob Hnext.
  destruct n as [new_event old_event|]; cbn [notify];
    unfold reschedule_dump_state_on_commit, reschedule_dump_state_on_pm_change;
    rewrite (reschedule_dump_state_run now _ w j scheduled Hjob Hnext);
    destruct (now + MINIMUM_STATE_DUMP_INTERVAL <? scheduled);
    try (eexists; reflexivity); by exists [].
Qed.

Lemma dump_moved_to_lookup t (jobs : gmap string Job) j :
  jobs !! STATE_DUMP_JOB_ID = Some j →
  dump_moved_to t jobs !! STATE_DUMP_JOB_ID = Some (mkJob (interval j) (Some t)).
Proof.
  intros Hjob. unfold dump_moved_to. by rewrite lookup_alter_eq, Hjob.
Qed.

Lemma dump_moved_to_others t (jobs : gmap string Job) job_id :
  job_id ≠ STATE_DUMP_JOB_ID →
  dump_moved_to t jobs !! job_id = jobs !! job_id.
Proof.
  intros Hother. unfold dump_moved_to. by rewrite lookup_alter_ne.
Qed.

(** C1: with [candidate = now + MINIMUM_STATE_DUMP_INTERVAL], a call of
    [reschedule_dump_state] rewrites the dump job's next run time to
    [candidate] when it was strictly later than [candidate], and leaves the
    scheduler as it was when it was at or before [candidate].  So the new
    next run time is never later than the old one, and when it differs from
    the old one it is exactly [candidate]; no other job is touched. *)
Theorem reschedule_dump_state_debounces
    now log_msg (w : World (gmap string Job)) j scheduled :
  heap w !! STATE_DUMP_JOB_ID = Some j →
  next_run_time j = Some scheduled →
  let candidate := now + MINIMUM_STATE_DUMP_INTERVAL in
  ∃ w' after,
    reschedule_dump_state now log_msg w = (Return tt, w') ∧
    heap w' !! STATE_DUMP_JOB_ID = Some (mkJob (interval j) (Some after)) ∧
    (candidate < scheduled → after = candidate) ∧
    (scheduled ≤ candidate → after = scheduled ∧ w' = w) ∧
    after ≤ scheduled ∧
    (after ≠ scheduled → after = candidate) ∧
    (∀ job_id, job_id ≠ STATE_DUMP_JOB_ID → heap w' !! job_id = heap w !! job_id).
Proof.
  intros Hjob Hnext candidate.
  rewrite (reschedule_dump_state_run now log_msg w j scheduled Hjob Hnext).
  fold candidate. destruct (Z.ltb_spec candidate scheduled) as [Hlater|Hsooner].
  - eexists _, candidate. split; [done|]. cbn [heap].
    split; [by apply dump_moved_to_lookup|].
    repeat split; try lia. intros job_id Hother. by apply dump_moved_to_others.
  - exists w, scheduled. split; [done|].
    split; [rewrite Hjob; destruct j; cbn in *; by subst|].
    repeat split; try done; lia.
Qed.

(** C2: the minimum interval is 10 seconds; with the dump scheduled 60
    seconds after [t0], notifications at [t0], [t0 + 2s] and [t0 + 4s]
    leave it scheduled at [t0 + 10s]: the first one moves it there and the
    two later ones change nothing. *)
Theorem three_notifications_dump_after_ten_seconds
    (t0 : Z) (n1 n2 n3 : Notification) (w : World (gmap string Job)) (j : Job) :
  heap w !! STATE_DUMP_JOB_ID = Some j →
  next_run_time j = Some (t0 + timedelta_seconds 60) →
  MINIMUM_STATE_DUMP_INTERVAL = timedelta_seconds 10 ∧
  ∃ w1,
    notify t0 n1 w = (Return tt, w1) ∧
    heap w1 !! STATE_DUMP_JOB_ID =
      Some (mkJob (interval j) (Some (t0 + timedelta_seconds 10))) ∧
    notify (t0 + timedelta_seconds 2) n2 w1 = (Return tt, w1) ∧
    notify (t0 + timedelta_seconds 4) n3 w1 = (Return tt, w1) ∧
    notify_all [(t0, n1);
                (t0 + timedelta_seconds 2, n2);
                (t0 + timedelta_seconds 4, n3)] w = (Return tt, w1).
Proof.
  intros Hjob Hnext. split; [done|].
  destruct (notify_run t0 n1 w j _ Hjob Hnext) as [log1 Hfirst].
  replace (t0 + MINIMUM_STATE_DUMP_INTERVAL <? t0 + timedelta_seconds 60)
    with true in Hfirst
    by (symmetry; apply Z.ltb_lt;
        unfold MINIMUM_STATE_DUMP_INTERVAL, timedelta_seconds; lia).
  eexists. split; [exact Hfirst|].
  pose proof (dump_moved_to_lookup (t0 + MINIMUM_STATE_DUMP_INTERVAL) _ _ Hjob) as Hmoved.
  split; [exact Hmoved|].
  assert (∀ t n, t0 ≤ t →
            notify t n (mkWorld (dump_moved_to (t0 + MINIMUM_STATE_DUMP_INTERVAL) (heap w)) log1)
            = (Return tt,
               mkWorld (dump_moved_to (t0 + MINIMUM_STATE_DUMP_INTERVAL) (heap w)) log1))
    as Hlater.
  { intros t n Ht.
    destruct (notify_run t n
                (mkWorld (dump_moved_to (t0 + MINIMUM_STATE_DUMP_INTERVAL) (heap w)) log1)
                _ _ Hmoved eq_refl) as [log' Hrun].
    rewrite Hrun.
    destruct (Z.ltb_spec (t + MINIMUM_STATE_DUMP_INTERVAL) (t0 + MINIMUM_STATE_DUMP_INTERVAL));
      [lia|done]. }
  assert (0 ≤ timedelta_seconds 2 ∧ 0 ≤ timedelta_seconds 4) as [H2 H4]
    by (unfold timedelta_seconds; lia).
  split; [apply Hlater; lia|]. split; [apply Hlater; lia|].
  cbn [notify_all]. py_step. rewrite Hfirst.
  rewrite !Hlater by lia. done.
Qed.

(** C4 as the specification states it fails when no [--config-file] was
    given and no [zino.toml] exists: [load_config] returns [None], logs
    nothing and does not exit. *)
Lemma load_config_default_missing_not_fatal :
  let before := mkWorld tt [] in
  let run := load_config unit no_such_file no_arguments before in
  config_file no_arguments = None ∧
  run = (Return None, before) ∧
  ¬ fatal_exit run before.
Proof.
  cbn zeta. split; [done|]. split; [done|].
  intros [Hexit _]. cbn in Hexit. discriminate.
Qed.

(** A start that names a configuration file which does not exist. *)
Lemma load_config_fatal_cases_witness :
  arg_truthy (config_file named_config) = true ∧
  fatal_exit (load_config unit no_such_file named_config (mkWorld tt []))
    (mkWorld tt []).
Proof.
  split; [reflexivity|].
  apply (load_config_fatal_cases unit no_such_file named_config (mkWorld tt []))
    with (errno := 2); reflexivity.
Defined.

(** C3 as the specification states it fails for a user whom no group lists
    as a member: [switch_to_user] succeeds with [setgid] and [setuid] only,
    so the user id is changed without the supplementary groups having been
    set. *)
Lemma switch_to_user_skips_setgroups :
  let run := switch_to_user sample_passwd sample_group root_only "lone" root_process in
  getpwnam sample_passwd "lone" = Return (mkPasswd "lone" 1002 1002) ∧
  uid (identity (heap root_process)) ≠ 1002 ∧
  fst run = Return true ∧
  syscalls (heap (snd run)) = [(Setgid 1002, None); (Setuid 1002, None)] ∧
  ¬ groups_before_uid (member_gids sample_group "lone") (syscalls (heap (snd run))).
Proof.
  cbn zeta. split; [done|]. split; [done|]. split; [done|]. split; [done|].
  intros Horder.
  destruct (Horder 1%nat 1002 None eq_refl) as (i & j & g & Hij & _).
  lia.
Qed.

(** Root switching to [zino], a member of the groups 4 and 116. *)
Lemma switch_to_user_call_order_witness :
  ∃ switched w' made,
    switch_to_user sample_passwd sample_group root_only "zino" root_process
      = (Return switched, w') ∧
    syscalls (heap w') = syscalls (heap root_process) ++ made ∧
    (if switched
     then made = [(Setgid 1001, None); (Setgroups [4; 116], None); (Setuid 1001, None)] ∧
          identity (heap w') = mkIdentity 1001 1001 [4; 116]
     else ∃ k c errno,
            [Setgid 1001; Setgroups [4; 116]; Setuid 1001] !! k = Some c ∧
            made = (accepted <$> take k [Setgid 1001; Setgroups [4; 116]; Setuid 1001])
                     ++ [(c, Some errno)]).
Proof.
  apply (switch_to_user_call_order sample_passwd sample_group root_only
           "zino" (mkPasswd "zino" 1001 1001) root_process).
  - reflexivity.
  - cbn. lia.
Defined.

(** Root switching to a user that the sample system does not have. *)
Lemma switch_to_user_unknown_user_witness :
  ∃ w',
    switch_to_user sample_passwd sample_group root_only "nosuchuser" root_process
      = (Return false, w') ∧
    syscalls (heap w') = syscalls (heap root_process) ∧
    identity (heap w') = identity (heap root_process) ∧
    logged w' =
      logged root_process
        ++ [mkLogRecord ERROR "Could not find user %s" [ArgStr "nosuchuser"]].
Proof.
  apply (switch_to_user_unknown_user sample_passwd sample_group root_only
           "nosuchuser" root_process).
  intros u Hu. repeat (apply elem_of_cons in Hu as [->|Hu]; [discriminate|]).
  by apply elem_of_nil in Hu.
Defined.

(** A notification at time 0 on the sample scheduler. *)
Lemma reschedule_dump_state_debounces_witness :
  ∃ w' after,
    reschedule_dump_state 0 "planned maintenances changed" sample_scheduler
      = (Return tt, w') ∧
    heap w' !! STATE_DUMP_JOB_ID = Some (mkJob (interval dump_job) (Some after)) ∧
    (0 + MINIMUM_STATE_DUMP_INTERVAL < timedelta_seconds 60 →
       after = 0 + MINIMUM_STATE_DUMP_INTERVAL) ∧
    (timedelta_seconds 60 ≤ 0 + MINIMUM_STATE_DUMP_INTERVAL →
       after = timedelta_seconds 60 ∧ w' = sample_scheduler) ∧
    after ≤ timedelta_seconds 60 ∧
    (after ≠ timedelta_seconds 60 → after = 0 + MINIMUM_STATE_DUMP_INTERVAL) ∧
    (∀ job_id, job_id ≠ STATE_DUMP_JOB_ID →
       heap w' !! job_id = heap sample_scheduler !! job_id).
Proof.
  apply (reschedule_dump_state_debounces 0 "planned maintenances changed"
           sample_scheduler dump_job (timedelta_seconds 60)); reflexivity.
Defined.

(** The scenario on the sample scheduler, starting at time 0. *)
Lemma three_notifications_dump_after_ten_seconds_witness :
  MINIMUM_STATE_DUMP_INTERVAL = timedelta_seconds 10 ∧
  ∃ w1,
    notify 0 MaintenanceChanged sample_scheduler = (Return tt, w1) ∧
    heap w1 !! STATE_DUMP_JOB_ID =
      Some (mkJob (interval dump_job) (Some (0 + timedelta_seconds 10))) ∧
    notify (0 + timedelta_seconds 2) (Committed (mkEvent 17) None) w1 = (Return tt, w1) ∧
    notify (0 + timedelta_seconds 4) MaintenanceChanged w1 = (Return tt, w1) ∧
    notify_all [(0, MaintenanceChanged);
                (0 + timedelta_seconds 2, Committed (mkEvent 17) None);
                (0 + timedelta_seconds 4, MaintenanceChanged)] sample_scheduler
      = (Return tt, w1).
Proof.
  apply (three_notifications_dump_after_ten_seconds 0
           MaintenanceChanged (Committed (mkEvent 17) None) MaintenanceChanged
           sample_scheduler dump_job); reflexivity.
Defined.

End ZinoProperties.

(** * Further properties *)

(** ** More on the session cache and the query path *)

Section SnmpQueries.

Import Snmp.

Variable getCmd :
  Engine → CommunityData → UdpTransportTarget → list ObjectType → Response.

(** A successful query returns the value of the first variable binding and
    ignores the bindings after it; nothing is logged. *)
Theorem get_first_binding me self object w e w1 name value rest :
  _get_engine me w = (Return e, w1) →
  error_indication (answer getCmd e self object) = None →
  status_code (error_status (answer getCmd e self object)) = 0 →
  var_binds (answer getCmd e self object) = (name, value) :: rest →
  get getCmd me self object w = (Return (Some value), w1) ∧ logged w1 = logged w.
Proof.
  intros Hrun Hind Hstatus Hbinds. split.
  - rewrite (get_unfold _ _ _ _ _ _ _ Hrun). cbn zeta.
    by rewrite Hind, Hstatus, Hbinds.
  - destruct (get_engine_returns me w) as (e' & w' & Hrun' & _ & Hlog & _).
    congruence.
Qed.

(** Whatever the device answered, and also when the query raises, [get]
    leaves the engine cache exactly as a call of [_get_engine] from the same
    thread leaves it. *)
Theorem get_cache_as_get_engine me self object w :
  heap (snd (get getCmd me self object w)) = heap (snd (_get_engine me w)).
Proof.
  destruct (get_engine_returns me w) as (e & w1 & Hrun & _).
  rewrite (get_unfold _ _ _ _ _ _ _ Hrun), Hrun. cbn zeta.
  destruct (error_indication _); [done|].
  destruct (negb _).
  - by destruct (culprit _ _).
  - by destruct (var_binds _).
Qed.

End SnmpQueries.

Section SnmpCache.

Import Snmp.

(** As many engines were constructed as there are threads that hold one:
    no thread ever gets a second engine, and no engine is constructed
    without being stored. *)
Theorem one_engine_per_thread (l : Local) :
  reachable l → size (snmp_engine l) = constructed l.
Proof.
  induction 1 as [|me w e w' _ IH Hcall]; [apply map_size_empty|].
  destruct (snmp_engine (heap w) !! me) as [e0|] eqn:Hslot.
  - rewrite (get_engine_cached _ _ _ Hslot) in Hcall. by injection Hcall as _ <-.
  - rewrite (get_engine_constructs _ _ Hslot) in Hcall. injection Hcall as _ <-.
    cbn [heap snmp_engine constructed].
    rewrite map_size_insert_None by done. by rewrite IH.
Qed.

(** The cache after thread 3, thread 5 and thread 3 again asked for their
    engine: two engines for two threads. *)
Lemma one_engine_per_thread_witness :
  size (snmp_engine (heap two_threads_served)) = constructed (heap two_threads_served).
Proof.
  apply (one_engine_per_thread (heap two_threads_served)).
  apply (reachable_call 3%nat two_threads_served 0%nat two_threads_served);
    [|reflexivity].
  apply (reachable_call 5%nat one_thread_served 1%nat two_threads_served);
    [|reflexivity].
  apply (reachable_call 3%nat fresh_world 0%nat one_thread_served);
    [apply reachable_fresh|reflexivity].
Defined.

(** A query from thread 7 to a device that answers with two bindings. *)
Lemma get_first_binding_witness :
  get two_bindings 7%nat sample_session sysUpTime fresh_world =
    (Return (Some (Integer 4711)), mkWorld (mkLocal (<[7%nat := 0%nat]> ∅) 1) []) ∧
  logged (mkWorld (mkLocal (<[7%nat := 0%nat]> ∅) 1) []) = logged fresh_world.
Proof.
  apply (get_first_binding two_bindings 7%nat sample_session sysUpTime fresh_world
           0%nat _ (mkObjectIdentity sysUpTime) (Integer 4711)
           [(mkObjectIdentity [OStr "SNMPv2-MIB"; OStr "sysName"; OInt 0],
             OctetString "gw1")]);
    reflexivity.
Defined.

(** A query from thread 7 that timed out. *)
Lemma get_error_indication_witness :
  get timed_out 7%nat sample_session sysUpTime fresh_world =
    (Return None,
     mkWorld (mkLocal (<[7%nat := 0%nat]> ∅) 1)
       [mkLogRecord ERROR "No SNMP response received before timeout" []]).
Proof.
  apply (get_error_indication timed_out 7%nat sample_session sysUpTime fresh_world
           0%nat (mkWorld (mkLocal (<[7%nat := 0%nat]> ∅) 1) []));
    reflexivity.
Defined.

(** A query from thread 7 whose object the device does not have. *)
Lemma get_error_status_in_range_witness :
  get noSuchName_at_1 7%nat sample_session sysUpTime fresh_world =
    (Return None,
     mkWorld (mkLocal (<[7%nat := 0%nat]> ∅) 1)
       [mkLogRecord ERROR "%s at %s"
          [ArgStr "noSuchName"; ArgOid (mkObjectIdentity sysUpTime)]]).
Proof.
  apply (get_error_status_in_range noSuchName_at_1 7%nat sample_session sysUpTime
           fresh_world 0%nat (mkWorld (mkLocal (<[7%nat := 0%nat]> ∅) 1) []));
    [reflexivity|reflexivity|discriminate|cbn; lia].
Defined.

(** A query from thread 7 for which the device blames a second object. *)
Lemma get_error_status_out_of_range_witness :
  get noSuchName_at_2 7%nat sample_session sysUpTime fresh_world =
    (Raise IndexError, mkWorld (mkLocal (<[7%nat := 0%nat]> ∅) 1) []).
Proof.
  apply (get_error_status_out_of_range noSuchName_at_2 7%nat sample_session sysUpTime
           fresh_world 0%nat (mkWorld (mkLocal (<[7%nat := 0%nat]> ∅) 1) []));
    [reflexivity|reflexivity|discriminate|cbn; lia].
Defined.

End SnmpCache.

(** ** More on loading the configuration *)

Section LoadingMore.

Import Zino.

Variable Configuration : Type.
Variable read_configuration : string → option string → Outcome Configuration.

(** [load_config] returns [None] in one case only: the file could not be
    opened ([OSError]) and no file name was given on the command line. *)
Theorem load_config_none_iff {S : Type} (args : Namespace) (w : World S) :
  fst (load_config Configuration read_configuration args w) = Return None ↔
  (∃ errno,
      read_configuration (arg_or (config_file args) DEFAULT_CONFIG_FILE) (polldevs args)
        = Raise (OSError errno)) ∧
  arg_truthy (config_file args) = false.
Proof.
  rewrite load_config_unfold.
  destruct (read_configuration _ _) as [c|e] eqn:Hread.
  - split; [done|]. by intros [[errno ?] _].
  - destruct e; cbn [fst];
      try (split; [done|]; by intros [[errno ?] _]).
    destruct (arg_truthy (config_file args)); cbn [fst].
    + split; [done|]. by intros [_ ?].
    + split; [|done]. intros _. eauto.
Qed.

(** A configuration that was read is returned as it is, nothing is logged,
    and [main] stores it in [state.config]. *)
Theorem load_config_loaded (args : Namespace) (c : Configuration) :
  read_configuration (arg_or (config_file args) DEFAULT_CONFIG_FILE) (polldevs args)
    = Return c →
  (∀ (S : Type) (w : World S),
     load_config Configuration read_configuration args w = (Return (Some c), w)) ∧
  (∀ current log,
     main_config Configuration read_configuration args (mkWorld current log) =
       (Return (Some c), mkWorld c log)).
Proof.
  intros Hread. split.
  - intros S w. by rewrite load_config_unfold, Hread.
  - intros current log. unfold main_config. py_step.
    by rewrite load_config_unfold, Hread.
Qed.

(** An empty [--config-file] argument counts as no argument: the default
    file is read, and a default file that cannot be opened is passed over
    in silence. *)
Theorem load_config_empty_name {S : Type} (args : Namespace) (w : World S) :
  config_file args = Some ""%string →
  load_config Configuration read_configuration args w =
    load_config Configuration read_configuration
      (mkNamespace (polldevs args) None (debug args) (stop_in args)
         (trap_port args) (user args)) w.
Proof.
  intros Hempty. rewrite !load_config_unfold. cbn [config_file polldevs].
  rewrite Hempty. cbn [arg_or arg_truthy str_truthy].
  destruct (read_configuration _ _) as [c|[]]; done.
Qed.

End LoadingMore.

Section LoadingWitnesses.

Import Zino.

(** Any file can be read, and none was named. *)
Lemma load_config_loaded_witness :
  (∀ (S : Type) (w : World S),
     load_config unit any_file no_arguments w = (Return (Some tt), w)) ∧
  (∀ current log,
     main_config unit any_file no_arguments (mkWorld current log) =
       (Return (Some tt), mkWorld tt log)).
Proof. apply (load_config_loaded unit any_file no_arguments tt). reflexivity. Defined.

(** No file exists, and the empty name was given. *)
Lemma load_config_empty_name_witness :
  load_config unit no_such_file empty_config_name (mkWorld tt []) =
    load_config unit no_such_file no_arguments (mkWorld tt []).
Proof.
  apply (load_config_empty_name unit no_such_file empty_config_name (mkWorld tt [])).
  reflexivity.
Defined.

End LoadingWitnesses.

(** ** More on dropping privileges *)

Section DroppingMore.

Import Zino.

Variable passwd : list struct_passwd.
Variable group : list struct_group.
Variable kernel : Identity → Syscall → option Z.

Lemma getpwnam_cases (username : string) :
  getpwnam passwd username = Raise KeyError ∨
  ∃ user, getpwnam passwd username = Return user.
Proof. unfold getpwnam. destruct (List.find _ passwd); eauto. Qed.

(** What [switch_to_user] does once the user was found and the uid differs:
    the three system calls, each made in the identity the earlier ones left. *)
Lemma switch_to_user_switching (username : string) (user : struct_passwd)
    (w : World Process) :
  getpwnam passwd username = Return user →
  uid (identity (heap w)) ≠ pw_uid user →
  ∃ switched w',
    switch_to_user passwd group kernel username w = (Return switched, w') ∧
    uid (identity (heap w')) =
      (if switched then pw_uid user else uid (identity (heap w))) ∧
    (kernel (identity (heap w)) (Setgid (pw_gid user)) = None →
     gid (identity (heap w')) = pw_gid user) ∧
    (switched = false →
     ∃ errno,
       logged w' =
         logged w ++
           [mkLogRecord ERROR "Failed changing uid/gid from %d/%d to %d/%d (%s)"
              [ArgInt (uid (identity (heap w))); ArgInt (gid (identity (heap w)));
               ArgInt (pw_uid user); ArgInt (pw_gid user); ArgExn (OSError errno)]]).
Proof.
  intros Hfound Hdiffer. apply Z.eqb_neq in Hdiffer.
  unfold switch_to_user, os_getuid, os_getgid, syscall.
  py_step. rewrite Hfound. cbn [heap logged identity syscalls]. rewrite Hdiffer.
  destruct (kernel (identity (heap w)) (Setgid (pw_gid user))) as [e1|] eqn:Hgid;
    cbn [heap logged identity syscalls is_OSError].
  { eexists false, _. split; [done|]. cbn [heap logged identity].
    split; [done|]. split; [done|]. eauto. }
  destruct (member_gids group username) as [|g gids'];
    cbn [heap logged identity syscalls].
  - destruct (kernel _ (Setuid (pw_uid user))) as [e3|];
      cbn [heap logged identity syscalls is_OSError].
    + eexists false, _. split; [done|]. cbn [heap logged identity apply_syscall uid gid].
      split; [done|]. split; [done|]. eauto.
    + eexists true, _. split; [done|]. cbn [heap logged identity apply_syscall uid gid].
      split; [done|]. split; done.
  - destruct (kernel _ (Setgroups (g :: gids'))) as [e2|];
      cbn [heap logged identity syscalls is_OSError].
    { eexists false, _. split; [done|]. cbn [heap logged identity apply_syscall uid gid].
      split; [done|]. split; [done|]. eauto. }
    destruct (kernel _ (Setuid (pw_uid user))) as [e3|];
      cbn [heap logged identity syscalls is_OSError].
    + eexists false, _. split; [done|]. cbn [heap logged identity apply_syscall uid gid].
      split; [done|]. split; [done|]. eauto.
    + eexists true, _. split; [done|]. cbn [heap logged identity apply_syscall uid gid].
      split; [done|]. split; done.
Qed.

Lemma switch_to_user_same_uid_run (username : string) (user : struct_passwd)
    (w : World Process) :
  getpwnam passwd username = Return user →
  uid (identity (heap w)) = pw_uid user →
  switch_to_user passwd group kernel username w =
    (Return true,
     mkWorld (heap w)
       (logged w ++
          [mkLogRecord DEBUG "Already running as uid/gid %d/%d."
             [ArgInt (uid (identity (heap w))); ArgInt (gid (identity (heap w)))]])).
Proof.
  intros Hfound Hsame. apply Z.eqb_eq in Hsame.
  unfold switch_to_user, os_getuid, os_getgid. py_step.
  rewrite Hfound. cbn [heap logged]. by rewrite Hsame.
Qed.

(** When the process already runs with the uid of the user, [switch_to_user]
    makes no system call at all and returns [True]; it does so on the uid
    alone, so a primary group or supplementary groups that differ from the
    user's stay as they are. *)
Theorem switch_to_user_same_uid (username : string) (user : struct_passwd)
    (w : World Process) :
  getpwnam passwd username = Return user →
  uid (identity (heap w)) = pw_uid user →
  ∃ w',
    switch_to_user passwd group kernel username w = (Return true, w') ∧
    heap w' = heap w ∧
    logged w' =
      logged w ++
        [mkLogRecord DEBUG "Already running as uid/gid %d/%d."
           [ArgInt (uid (identity (heap w))); ArgInt (gid (identity (heap w)))]].
Proof.
  intros Hfound Hsame. eexists.
  split; [by apply (switch_to_user_same_uid_run username user)|done].
Qed.

(** What the result of [switch_to_user] says about the uid, for a call
    that returns: after [True] the process has the uid of the user, who was
    found in the user database; after [False] the uid is the one it had.
    (A call that ends in an exception which [except OSError] does not
    catch returns nothing, and nothing is said about it.) *)
Theorem switch_to_user_uid_by_result
    (username : string) (w w' : World Process) (switched : bool) :
  switch_to_user passwd group kernel username w = (Return switched, w') →
  if switched
  then ∃ user, getpwnam passwd username = Return user ∧
               uid (identity (heap w')) = pw_uid user
  else uid (identity (heap w')) = uid (identity (heap w)).
Proof.
  intros Hrun.
  destruct (getpwnam_cases username) as [Hnone|[user Hfound]].
  - revert Hrun. unfold switch_to_user, os_getuid, os_getgid. py_step.
    rewrite Hnone. cbn [is_KeyError heap logged]. by intros [= <- <-].
  - destruct (decide (uid (identity (heap w)) = pw_uid user)) as [Hsame|Hdiffer].
    + rewrite (switch_to_user_same_uid_run username user w Hfound Hsame) in Hrun.
      injection Hrun as <- <-. eauto.
    + destruct (switch_to_user_switching username user w Hfound Hdiffer)
        as (switched' & w1 & Hrun1 & Huid & _).
      rewrite Hrun in Hrun1. injection Hrun1 as <- <-. destruct switched; eauto.
Qed.

(** There is no rollback: when [setgid] was accepted and a later call is
    refused, [switch_to_user] logs the error and returns [False] with the
    process left in the new primary group under its old uid. *)
Theorem switch_to_user_no_rollback (username : string) (user : struct_passwd)
    (w w' : World Process) :
  getpwnam passwd username = Return user →
  uid (identity (heap w)) ≠ pw_uid user →
  kernel (identity (heap w)) (Setgid (pw_gid user)) = None →
  switch_to_user passwd group kernel username w = (Return false, w') →
  gid (identity (heap w')) = pw_gid user ∧
  uid (identity (heap w')) = uid (identity (heap w)) ∧
  ∃ errno,
    logged w' =
      logged w ++
        [mkLogRecord ERROR "Failed changing uid/gid from %d/%d to %d/%d (%s)"
           [ArgInt (uid (identity (heap w))); ArgInt (gid (identity (heap w)));
            ArgInt (pw_uid user); ArgInt (pw_gid user); ArgExn (OSError errno)]].
Proof.
  intros Hfound Hdiffer Hgid Hrun.
  destruct (switch_to_user_switching username user w Hfound Hdiffer)
    as (switched & w1 & Hrun1 & Huid & Hgid1 & Hlog).
  rewrite Hrun in Hrun1. injection Hrun1 as <- <-. auto.
Qed.

End DroppingMore.

Section DroppingWitnesses.

Import Zino.

(** [zino] asking to become [zino] while in another primary group. *)
Lemma switch_to_user_same_uid_witness :
  ∃ w',
    switch_to_user sample_passwd sample_group root_only "zino" zino_process
      = (Return true, w') ∧
    heap w' = heap zino_process ∧
    logged w' =
      logged zino_process ++
        [mkLogRecord DEBUG "Already running as uid/gid %d/%d." [ArgInt 1001; ArgInt 100]].
Proof.
  apply (switch_to_user_same_uid sample_passwd sample_group root_only
           "zino" (mkPasswd "zino" 1001 1001) zino_process); reflexivity.
Defined.

(** Root switching to [zino], and root switching to [zino] under a kernel
    that refuses [setuid]. *)
Lemma switch_to_user_uid_by_result_witness :
  (∃ user, getpwnam sample_passwd "zino" = Return user ∧
           uid (identity (heap (snd (switch_to_user sample_passwd sample_group root_only
                                       "zino" root_process)))) = pw_uid user) ∧
  uid (identity (heap (snd (switch_to_user sample_passwd sample_group no_setuid
                              "zino" root_process)))) = uid (identity (heap root_process)).
Proof.
  split.
  - apply (switch_to_user_uid_by_result sample_passwd sample_group root_only
             "zino" root_process _ true). reflexivity.
  - apply (switch_to_user_uid_by_result sample_passwd sample_group no_setuid
             "zino" root_process _ false). reflexivity.
Defined.

(** Root switching to [zino] under a kernel that refuses [setuid]. *)
Lemma switch_to_user_no_rollback_witness :
  gid (identity (heap (snd (switch_to_user sample_passwd sample_group no_setuid
                              "zino" root_process)))) = 1001 ∧
  uid (identity (heap (snd (switch_to_user sample_passwd sample_group no_setuid
                              "zino" root_process)))) = 0 ∧
  ∃ errno,
    logged (snd (switch_to_user sample_passwd sample_group no_setuid
                   "zino" root_process)) =
      logged root_process ++
        [mkLogRecord ERROR "Failed changing uid/gid from %d/%d to %d/%d (%s)"
           [ArgInt 0; ArgInt 0; ArgInt 1001; ArgInt 1001; ArgExn (OSError errno)]].
Proof.
  apply (switch_to_user_no_rollback sample_passwd sample_group no_setuid
           "zino" (mkPasswd "zino" 1001 1001) root_process);
    [reflexivity|cbn; lia|reflexivity|reflexivity].
Defined.

End DroppingWitnesses.

(** ** More on debouncing the state dump *)

Section DebouncingMore.

Import Zino.

(** Either observer needs the dump job to be there and to be scheduled: on
    a scheduler without the job it raises [AttributeError], on a paused job
    (one without a next run time) [TypeError]; in both cases the scheduler
    and the log are as before. *)
Theorem notify_needs_scheduled_job
    (now : Z) (n : Notification) (w : World (gmap string Job)) :
  (heap w !! STATE_DUMP_JOB_ID = None →
   notify now n w = (Raise AttributeError, w)) ∧
  (∀ j, heap w !! STATE_DUMP_JOB_ID = Some j → next_run_time j = None →
        notify now n w = (Raise TypeError, w)).
Proof.
  split.
  - intros Hjob. destruct n; cbn [notify];
      unfold reschedule_dump_state_on_commit, reschedule_dump_state_on_pm_change,
        reschedule_dump_state, get_job;
      py_step; by rewrite Hjob.
  - intros j Hjob Hpaused. destruct n; cbn [notify];
      unfold reschedule_dump_state_on_commit, reschedule_dump_state_on_pm_change,
        reschedule_dump_state, get_job;
      py_step; by rewrite Hjob, Hpaused.
Qed.

Lemma job_eta (j : Job) (t : Z) :
  next_run_time j = Some t → j = mkJob (interval j) (Some t).
Proof. destruct j; cbn; by intros ->. Qed.

(** After any run of notifications, in whatever order their times come, the
    dump job's next run time is the earliest of the time it was scheduled
    for and the candidates [time + MINIMUM_STATE_DUMP_INTERVAL] of the
    notifications; no notification raises and no other job is touched. *)
Theorem notify_all_earliest (ns : list (Z * Notification)) :
  ∀ (w : World (gmap string Job)) (j : Job) (scheduled : Z),
    heap w !! STATE_DUMP_JOB_ID = Some j →
    next_run_time j = Some scheduled →
    ∃ w' after,
      notify_all ns w = (Return tt, w') ∧
      heap w' !! STATE_DUMP_JOB_ID = Some (mkJob (interval j) (Some after)) ∧
      after ≤ scheduled ∧
      (∀ t n, (t, n) ∈ ns → after ≤ t + MINIMUM_STATE_DUMP_INTERVAL) ∧
      (after = scheduled ∨
       ∃ t n, (t, n) ∈ ns ∧ after = t + MINIMUM_STATE_DUMP_INTERVAL) ∧
      (∀ job_id, job_id ≠ STATE_DUMP_JOB_ID → heap w' !! job_id = heap w !! job_id).
Proof.
  induction ns as [|[t n] rest IH]; intros w j scheduled Hjob Hnext.
  - exists w, scheduled. split; [done|].
    split; [by rewrite Hjob, (job_eta j scheduled Hnext) at 1|].
    split; [lia|]. split; [by intros t n ?%elem_of_nil|]. split; [by left|done].
  - destruct (notify_run t n w j scheduled Hjob Hnext) as [log1 Hfirst].
    cbn [notify_all]. py_step. rewrite Hfirst.
    destruct (Z.ltb_spec (t + MINIMUM_STATE_DUMP_INTERVAL) scheduled) as [Hmove|Hkeep].
    + pose proof (dump_moved_to_lookup (t + MINIMUM_STATE_DUMP_INTERVAL) _ _ Hjob)
        as Hmoved.
      destruct (IH (mkWorld (dump_moved_to (t + MINIMUM_STATE_DUMP_INTERVAL) (heap w)) log1)
                  _ _ Hmoved eq_refl)
        as (w' & after & Hrun & Hafter & Hle & Hall & Hsome & Hothers).
      exists w', after. split; [done|]. split; [done|]. split; [lia|].
      split; [|split].
      * intros t' n' [[= -> ->]|Hin]%elem_of_cons; [lia|by eapply Hall].
      * right. destruct Hsome as [->|(t' & n' & Hin & ->)].
        -- exists t, n. split; [left|done].
        -- exists t', n'. split; [by right|done].
      * intros job_id Hother. rewrite Hothers by done.
        by apply dump_moved_to_others.
    + destruct (IH w j scheduled Hjob Hnext)
        as (w' & after & Hrun & Hafter & Hle & Hall & Hsome & Hothers).
      exists w', after. split; [done|]. split; [done|]. split; [done|].
      split; [|split; [|done]].
      * intros t' n' [[= -> ->]|Hin]%elem_of_cons; [lia|by eapply Hall].
      * destruct Hsome as [->|(t' & n' & Hin & ->)]; [by left|].
        right. exists t', n'. split; [by right|done].
Qed.

(** Once a notification was handled, a notification that comes at the same
    time or later finds nothing to do: it leaves the scheduler and the log
    as they are. *)
Theorem notify_later_is_quiet
    (t1 t2 : Z) (n1 n2 : Notification) (w : World (gmap string Job))
    (j : Job) (scheduled : Z) :
  heap w !! STATE_DUMP_JOB_ID = Some j →
  next_run_time j = Some scheduled →
  t1 ≤ t2 →
  ∃ w1,
    notify t1 n1 w = (Return tt, w1) ∧
    notify t2 n2 w1 = (Return tt, w1).
Proof.
  intros Hjob Hnext Hlater.
  destruct (notify_run t1 n1 w j scheduled Hjob Hnext) as [log1 Hfirst].
  rewrite Hfirst.
  destruct (Z.ltb_spec (t1 + MINIMUM_STATE_DUMP_INTERVAL) scheduled) as [Hmove|Hkeep].
  - eexists. split; [done|].
    pose proof (dump_moved_to_lookup (t1 + MINIMUM_STATE_DUMP_INTERVAL) _ _ Hjob)
      as Hmoved.
    destruct (notify_run t2 n2
                (mkWorld (dump_moved_to (t1 + MINIMUM_STATE_DUMP_INTERVAL) (heap w)) log1)
                _ _ Hmoved eq_refl) as [log2 Hsecond].
    rewrite Hsecond.
    destruct (Z.ltb_spec (t2 + MINIMUM_STATE_DUMP_INTERVAL)
                (t1 + MINIMUM_STATE_DUMP_INTERVAL)); [lia|done].
  - exists w. split; [done|].
    destruct (notify_run t2 n2 w j scheduled Hjob Hnext) as [log2 Hsecond].
    rewrite Hsecond.
    destruct (Z.ltb_spec (t2 + MINIMUM_STATE_DUMP_INTERVAL) scheduled); [lia|done].
Qed.

End DebouncingMore.

Section DebouncingWitnesses.

Import Zino.

(** Two notifications out of order on the sample scheduler. *)
Lemma notify_all_earliest_witness :
  ∃ w' after,
    notify_all [(timedelta_seconds 30, MaintenanceChanged);
                (timedelta_seconds 5, Committed (mkEvent 17) None)] sample_scheduler
      = (Return tt, w') ∧
    heap w' !! STATE_DUMP_JOB_ID = Some (mkJob (interval dump_job) (Some after)) ∧
    after ≤ timedelta_seconds 60 ∧
    (∀ t n, (t, n) ∈ [(timedelta_seconds 30, MaintenanceChanged);
                      (timedelta_seconds 5, Committed (mkEvent 17) None)] →
            after ≤ t + MINIMUM_STATE_DUMP_INTERVAL) ∧
    (after = timedelta_seconds 60 ∨
     ∃ t n, (t, n) ∈ [(timedelta_seconds 30, MaintenanceChanged);
                      (timedelta_seconds 5, Committed (mkEvent 17) None)] ∧
            after = t + MINIMUM_STATE_DUMP_INTERVAL) ∧
    (∀ job_id, job_id ≠ STATE_DUMP_JOB_ID →
               heap w' !! job_id = heap sample_scheduler !! job_id).
Proof.
  apply (notify_all_earliest
           [(timedelta_seconds 30, MaintenanceChanged);
            (timedelta_seconds 5, Committed (mkEvent 17) None)]
           sample_scheduler dump_job (timedelta_seconds 60)); reflexivity.
Defined.

(** Two notifications two seconds apart on the sample scheduler. *)
Lemma notify_later_is_quiet_witness :
  ∃ w1,
    notify 0 MaintenanceChanged sample_scheduler = (Return tt, w1) ∧
    notify (timedelta_seconds 2) (Committed (mkEvent 17) None) w1 = (Return tt, w1).
Proof.
  apply (notify_later_is_quiet 0 (timedelta_seconds 2)
           MaintenanceChanged (Committed (mkEvent 17) None)
           sample_scheduler dump_job (timedelta_seconds 60));
    [reflexivity|reflexivity|unfold timedelta_seconds; lia].
Defined.

End DebouncingWitnesses.

(** ** Counting reachable objects *)

Section Counting.

Import Zino.

Variable Object : Type.
Variable objects : list Object.
Variable isinstance : Object → string → bool.

Lemma increment_lookup (t t' : string) (counts : gmap string nat) :
  default 0%nat (increment t' counts !! t) =
    (default 0%nat (counts !! t) + if String.eqb t t' then 1 else 0)%nat.
Proof.
  unfold increment. destruct (String.eqb_spec t t') as [->|Hne].
  - rewrite lookup_insert_eq. cbn. lia.
  - rewrite lookup_insert_ne by done. lia.
Qed.

Lemma count_types_lookup (obj : Object) (t : string) (types : list string) :
  ∀ counts : gmap string nat,
    default 0%nat
      (foldl (λ counts t', if isinstance obj t' then increment t' counts else counts)
         counts types !! t) =
      (default 0%nat (counts !! t) + if isinstance obj t then listed types t else 0)%nat.
Proof.
  unfold listed.
  induction types as [|t' rest IH]; intros counts; cbn [foldl List.filter].
  - destruct (isinstance obj t); cbn; lia.
  - rewrite IH. destruct (String.eqb_spec t t') as [<-|Hne].
    + destruct (isinstance obj t) eqn:Hinst; [|lia].
      rewrite increment_lookup, String.eqb_refl. cbn [length]. lia.
    + destruct (isinstance obj t'); [|done].
      rewrite increment_lookup. destruct (String.eqb_spec t t'); [done|]. lia.
Qed.

Lemma count_objects_lookup (types : list string) (t : string) (objs : list Object) :
  ∀ counts : gmap string nat,
    default 0%nat
      (foldl (λ counts obj,
                foldl (λ counts t', if isinstance obj t' then increment t' counts
                                    else counts)
                      counts types)
         counts objs !! t) =
      (default 0%nat (counts !! t) + instances objs isinstance t * listed types t)%nat.
Proof.
  unfold instances.
  induction objs as [|obj rest IH]; intros counts; cbn [foldl List.filter].
  - cbn. lia.
  - rewrite IH, count_types_lookup.
    destruct (isinstance obj t); cbn [length]; lia.
Qed.

Lemma count_types_positive (obj : Object) (types : list string) :
  ∀ counts : gmap string nat,
    positive_counts counts →
    positive_counts
      (foldl (λ counts t', if isinstance obj t' then increment t' counts else counts)
         counts types).
Proof.
  induction types as [|t' rest IH]; intros counts Hpos; cbn [foldl]; [done|].
  apply IH. destruct (isinstance obj t'); [|done].
  intros t n. unfold increment. rewrite lookup_insert. case_decide.
  - intros [= <-]. lia.
  - apply Hpos.
Qed.

Lemma count_objects_positive (types : list string) (objs : list Object) :
  ∀ counts : gmap string nat,
    positive_counts counts →
    positive_counts
      (foldl (λ counts obj,
                foldl (λ counts t', if isinstance obj t' then increment t' counts
                                    else counts)
                      counts types)
         counts objs).
Proof.
  induction objs as [|obj rest IH]; intros counts Hpos; cbn [foldl]; [done|].
  apply IH. by apply count_types_positive.
Qed.

(** The count that [_count_reachable_objects] returns for a class is the
    number of tracked objects that are instances of it, once for every time
    the class was passed; read as a [defaultdict], that is 0 for a class
    that was not passed or has no instance, and such a class has no key. *)
Theorem count_reachable_objects_counts (types : list string) (t : string) :
  let counts := _count_reachable_objects Object objects isinstance types in
  default 0%nat (counts !! t) = (instances objects isinstance t * listed types t)%nat ∧
  (counts !! t = None ↔ (instances objects isinstance t * listed types t = 0)%nat).
Proof.
  intros counts.
  assert (default 0%nat (counts !! t)
          = (instances objects isinstance t * listed types t)%nat) as Hcount.
  { subst counts. unfold _count_reachable_objects.
    rewrite count_objects_lookup, lookup_empty. cbn. lia. }
  split; [done|]. rewrite <- Hcount.
  destruct (counts !! t) as [n|] eqn:Hkey; cbn; [|done].
  assert (positive_counts counts) as Hpos.
  { apply count_objects_positive. intros t' n'. by rewrite lookup_empty. }
  apply Hpos in Hkey. split; [done|lia].
Qed.

End Counting.

(** ** Start-up *)

Section StartupProperties.

Import Zino.

Variable Logging : Type.
Variable dictConfig : Logging → option string.
Variable read_configuration : string → option string → Outcome (Configuration Logging).
Variable file_is_world_readable : string → Outcome bool.
Variable passwd : list struct_passwd.
Variable group : list struct_group.
Variable kernel : Identity → Syscall → option Z.
Variable trap_open : Identity → Z → Outcome unit.
Variable get_event_loop : nat.
Variable run_forever : nat → LoopExit.
Variable clock : nat → Z.
Variable FLAP_DECREMENT_INTERVAL_SECONDS : Z.

Abbreviation setup := (setup_initial_job_schedule Logging clock FLAP_DECREMENT_INTERVAL_SECONDS).
Abbreviation init :=
  (init_event_loop Logging passwd group kernel trap_open get_event_loop run_forever
     clock FLAP_DECREMENT_INTERVAL_SECONDS).
Abbreviation start :=
  (main Logging dictConfig read_configuration file_is_world_readable passwd group
     kernel trap_open get_event_loop run_forever clock FLAP_DECREMENT_INTERVAL_SECONDS).

Lemma after_calls_nil (d : Daemon Logging) : after_calls d [] 0 = d.
Proof.
  destruct d. unfold after_calls. cbn. by rewrite app_nil_r, Nat.add_0_r.
Qed.

Lemma after_calls_twice (d : Daemon Logging) (c1 c2 : list Call) (r1 r2 : nat) :
  after_calls (after_calls d c1 r1) c2 r2 = after_calls d (c1 ++ c2) (r1 + r2).
Proof.
  unfold after_calls. cbn. by rewrite (assoc_L (++)), Nat.add_assoc.
Qed.


Ltac startup_eval :=
  cbv [setup_initial_job_schedule init_event_loop main apply_logging_config
       call datetime_now in_process
       mbind mret Py_bind Py_ret get_heap put_heap log lift raise sys_exit try_except
       heap logged state_config os_process calls clock_reads
       after_calls started stop_after].

Ltac startup_done :=
  rewrite <- ?(assoc_L (++)); cbn [app]; rewrite ?app_nil_r;
  repeat f_equal; try lia; try reflexivity.

(** What [setup_initial_job_schedule] leaves. *)
Lemma setup_run (loop : nat) (args : Namespace) (w : World (Daemon Logging)) :
  setup loop args w =
    match stop_after args with
    | Some seconds =>
        if representable (clock (S (S (S (clock_reads _ (heap w)))))) seconds
        then
          (Return tt,
           mkWorld
             (after_calls (heap w)
                (recurring_jobs (state_config _ (heap w)) clock
                   FLAP_DECREMENT_INTERVAL_SECONDS (clock_reads _ (heap w))
                   ++ [stop_job clock (clock_reads _ (heap w)) loop seconds]) 4)
             (logged w ++ [mkLogRecord INFO "Instructed to stop in %s seconds"
                             [ArgInt seconds]]))
        else
          (Raise OverflowError,
           mkWorld
             (after_calls (heap w)
                (recurring_jobs (state_config _ (heap w)) clock
                   FLAP_DECREMENT_INTERVAL_SECONDS (clock_reads _ (heap w))) 4)
             (logged w ++ [mkLogRecord INFO "Instructed to stop in %s seconds"
                             [ArgInt seconds]]))
    | None =>
        (Return tt,
         mkWorld
           (after_calls (heap w)
              (recurring_jobs (state_config _ (heap w)) clock
                 FLAP_DECREMENT_INTERVAL_SECONDS (clock_reads _ (heap w))) 3)
           (logged w))
    end.
Proof.
  destruct w as [[config process made reads] log].
  startup_eval. unfold recurring_jobs, stop_job, representable.
  destruct (stop_in args) as [seconds|]; [destruct (seconds =? 0)|].
  - startup_done.
  - cbv [timedelta datetime_add].
    destruct (TIMEDELTA_MIN <=? timedelta_seconds seconds),
      (timedelta_seconds seconds <=? TIMEDELTA_MAX); cbn [andb];
      try startup_done.
    destruct (0 <=? clock (S (S (S reads))) + timedelta_seconds seconds),
      (clock (S (S (S reads))) + timedelta_seconds seconds <=? DATETIME_MAX);
      cbn [andb]; startup_done.
  - startup_done.
Qed.

Lemma recurring_jobs_recurring
    (config : Configuration Logging) (reads : nat) (r : JobRequest) :
  AddJob r ∈ recurring_jobs config clock FLAP_DECREMENT_INTERVAL_SECONDS reads →
  recurring r.
Proof.
  intros Hr. unfold recurring_jobs in Hr.
  repeat (apply elem_of_cons in Hr as [Hr|Hr];
          [try discriminate Hr; injection Hr as ->; exact I|]).
  by apply elem_of_nil in Hr.
Qed.

(** Whether [setup_initial_job_schedule] returns or ends in the
    [OverflowError] of a stop date that cannot be computed, it has by then
    registered the state dump under the id that [reschedule_dump_state]
    looks up, with the configured persistence period and file, and it did
    so before it registered the two observers that call
    [reschedule_dump_state]; no other job is given an id. *)
Theorem setup_registers_dump_job_first
    (loop : nat) (args : Namespace) (w : World (Daemon Logging)) :
  ∃ result w' before request after,
    setup loop args w = (result, w') ∧
    (result = Return tt ∨ result = Raise OverflowError) ∧
    calls _ (heap w') = calls _ (heap w) ++ before ++ [AddJob request] ++ after ∧
    request =
      mkJobRequest dump_state_to_file
        (IntervalMinutes (persistence_period _ (state_config _ (heap w))))
        [FileArg (persistence_file _ (state_config _ (heap w)))]
        (Some STATE_DUMP_JOB_ID) None ∧
    (∀ c, c ∈ before → registers_observer c = false) ∧
    AddEventObserver on_commit ∈ after ∧
    AddPmObserver on_pm_change ∈ after ∧
    (∀ r, AddJob r ∈ before ++ after → job_id r = None).
Proof.
  rewrite setup_run. unfold recurring_jobs.
  destruct (stop_after args) as [seconds|];
    [destruct (representable _ _)|]; eexists _, _, [_; _], _, _;
    (split; [reflexivity|]); (split; [by auto|]);
    (split; [reflexivity|]); (split; [reflexivity|]);
    (split; [|split; [|split]]).
  all: try (intros c Hc; repeat (apply elem_of_cons in Hc as [->|Hc]; [done|]);
            by apply elem_of_nil in Hc).
  all: try (repeat constructor; fail).
  all: intros r Hr; cbn [app] in Hr;
    repeat (apply elem_of_cons in Hr as [Hr|Hr];
            [try discriminate Hr; injection Hr as ->; reflexivity|]);
    by apply elem_of_nil in Hr.
Qed.

(** The stop job is asked for only by a [--stop-in] that is given and not 0:
    without one, [setup_initial_job_schedule] returns with interval jobs
    only and logs nothing.  With one, the stop is announced in the log; when
    its date can be computed the stop job is added last, dated the time of
    the clock plus that many seconds, and when it cannot (the seconds do not
    make a [timedelta], or the date lies beyond year 9999) the function
    raises [OverflowError] with the interval jobs registered and no stop
    job. *)
Theorem setup_stop_job (loop : nat) (args : Namespace) (w : World (Daemon Logging)) :
  ∃ result w' added,
    setup loop args w = (result, w') ∧
    calls _ (heap w') = calls _ (heap w) ++ added ∧
    match stop_in args with
    | Some 0 | None =>
        result = Return tt ∧
        logged w' = logged w ∧
        ∀ r, AddJob r ∈ added → recurring r
    | Some seconds =>
        logged w' =
          logged w ++ [mkLogRecord INFO "Instructed to stop in %s seconds"
                         [ArgInt seconds]] ∧
        if representable (clock (clock_reads _ (heap w) + 3)) seconds
        then
          result = Return tt ∧
          last added =
            Some (AddJob (mkJobRequest (loop_stop loop)
                            (DateTrigger (clock (clock_reads _ (heap w) + 3)
                                          + timedelta_seconds seconds))
                            [] None None))
        else
          result = Raise OverflowError ∧
          ∀ r, AddJob r ∈ added → recurring r
    end.
Proof.
  rewrite setup_run. unfold stop_after.
  pose proof (recurring_jobs_recurring (state_config _ (heap w)) (clock_reads _ (heap w)))
    as Hrecurring.
  replace (clock_reads _ (heap w) + 3)%nat with (S (S (S (clock_reads _ (heap w)))))
    by lia.
  destruct (stop_in args) as [seconds|]; [destruct (Z.eqb_spec seconds 0) as [->|Hstop]|].
  - eexists _, _, _. split; [reflexivity|]. split; [reflexivity|]. by repeat split.
  - destruct (representable _ _) eqn:Hdate; eexists _, _, _;
      (split; [reflexivity|]); (split; [reflexivity|]);
      destruct seconds; try done; rewrite Hdate;
      (split; [reflexivity|]); split; try done; apply last_snoc.
  - eexists _, _, _. split; [reflexivity|]. split; [reflexivity|]. by repeat split.
Qed.

(** [init_event_loop] once the trap receiver is out of the way (it was not
    asked for, or it could be opened), for a switch of user that returned,
    if one was asked for. *)
Lemma init_to_setup (args : Namespace) (loop : option nat) (w : World (Daemon Logging))
    (process : Process) (written : list LogRecord) :
  trap_port args = 0 ∨
  trap_open (identity (os_process _ (heap w))) (trap_port args) = Return tt →
  (if arg_truthy (user args)
   then ∃ switched,
          switch_to_user passwd group kernel (default ""%string (user args))
            (mkWorld (os_process _ (heap w)) (logged w))
            = (Return switched, mkWorld process written)
   else process = os_process _ (heap w) ∧ written = logged w) →
  init args loop w =
    match
      setup (default get_event_loop loop) args
        (mkWorld
           (mkDaemon _ (state_config _ (heap w)) process
              (calls _ (heap w)
                 ++ if trap_port args =? 0 then []
                    else trap_calls (trap_port args) (default get_event_loop loop))
              (clock_reads _ (heap w)))
           written)
    with
    | (Return _, w') =>
        (loop_result (run_forever (default get_event_loop loop)),
         mkWorld
           (after_calls (heap w')
              [ZinoServer (default get_event_loop loop); Serve;
               RunForever (default get_event_loop loop)] 0)
           (logged w'))
    | (Raise e, w') => (Raise e, w')
    end.
Proof.
  intros Htrap Hswitch.
  destruct w as [[config proc made reads] lg].
  cbn [heap logged os_process clock_reads state_config calls] in *.
  unfold init_event_loop.
  cbv [call in_process mbind mret Py_bind Py_ret get_heap put_heap log lift raise
       sys_exit try_except heap logged state_config os_process calls clock_reads].
  unfold trap_calls, loop_result.
  destruct (Z.eqb_spec (trap_port args) 0) as [Hoff|Hon]; cbn [negb].
  - rewrite app_nil_r. destruct (arg_truthy (user args)).
    + destruct Hswitch as [switched ->]. cbn [heap logged].
      destruct switched;
        destruct (setup _ _ _) as [[[]|e] [[c p m r] l]]; try done;
        cbv [after_calls heap logged state_config os_process calls clock_reads];
        destruct (run_forever _) as [| |[]]; startup_done.
    + destruct Hswitch as [-> ->].
      destruct (setup _ _ _) as [[[]|e] [[c p m r] l]]; try done;
        cbv [after_calls heap logged state_config os_process calls clock_reads];
        destruct (run_forever _) as [| |[]]; startup_done.
  - destruct Htrap as [?|Hopen]; [done|]. rewrite Hopen.
    rewrite <- !(assoc_L (++)). cbn [app].
    destruct (arg_truthy (user args)).
    + destruct Hswitch as [switched ->]. cbn [heap logged].
      destruct switched;
        destruct (setup _ _ _) as [[[]|e] [[c p m r] l]]; try done;
        cbv [after_calls heap logged state_config os_process calls clock_reads];
        destruct (run_forever _) as [| |[]]; startup_done.
    + destruct Hswitch as [-> ->].
      destruct (setup _ _ _) as [[[]|e] [[c p m r] l]]; try done;
        cbv [after_calls heap logged state_config os_process calls clock_reads];
        destruct (run_forever _) as [| |[]]; startup_done.
Qed.

(** The same with a stop date that can be computed, if a stop was asked
    for: [init_event_loop] gets to the loop. *)
Lemma init_run (args : Namespace) (loop : option nat) (w : World (Daemon Logging))
    (process : Process) (log : list LogRecord) :
  trap_port args = 0 ∨
  trap_open (identity (os_process _ (heap w))) (trap_port args) = Return tt →
  (if arg_truthy (user args)
   then ∃ switched,
          switch_to_user passwd group kernel (default ""%string (user args))
            (mkWorld (os_process _ (heap w)) (logged w))
            = (Return switched, mkWorld process log)
   else process = os_process _ (heap w) ∧ log = logged w) →
  schedulable clock (clock_reads _ (heap w)) args →
  init args loop w =
    (loop_result (run_forever (default get_event_loop loop)),
     started (heap w) process log clock FLAP_DECREMENT_INTERVAL_SECONDS
       (default get_event_loop loop) args).
Proof.
  intros Htrap Hswitch Hdate.
  rewrite (init_to_setup args loop w process log Htrap Hswitch), setup_run.
  unfold schedulable in Hdate. unfold started, after_calls.
  cbn [heap logged state_config os_process calls clock_reads].
  destruct (stop_after args) as [seconds|].
  - rewrite Hdate. cbn [heap logged state_config os_process calls clock_reads].
    rewrite Nat.add_0_r. startup_done.
  - cbn [heap logged state_config os_process calls clock_reads].
    rewrite Nat.add_0_r. startup_done.
Qed.

(** When the trap port cannot be opened, [init_event_loop] ends before it
    touches the identity of the process or the scheduler.  A refusal for
    lack of permission ([EPERM] or [EACCES]) is logged as fatal and exits
    with [EACCES], whichever of the two it was; any other [OSError] leaves
    the function as it is, unlogged. *)
Theorem init_event_loop_trap_port_refused
    (args : Namespace) (loop : option nat) (w : World (Daemon Logging)) (errno : Z) :
  trap_port args ≠ 0 →
  trap_open (identity (os_process _ (heap w))) (trap_port args) = Raise (OSError errno) →
  let stopped :=
    after_calls (heap w) (trap_calls (trap_port args) (default get_event_loop loop)) 0 in
  init args loop w =
    if (errno =? EPERM) || (errno =? EACCES)
    then (Raise (SystemExit EACCES),
          mkWorld stopped
            (logged w ++
               [mkLogRecord FATAL
                  "Permission denied on UDP port %s. Use --trap-port to specify unprivileged port, or run as root"
                  [ArgInt (trap_port args)]]))
    else (Raise (OSError errno), mkWorld stopped (logged w)).
Proof.
  intros Hon Hrefused stopped. subst stopped.
  unfold init_event_loop, after_calls, trap_calls, call. py_step.
  cbn [state_config os_process calls clock_reads].
  destruct (Z.eqb_spec (trap_port args) 0) as [?|_]; [done|]. cbn [negb].
  cbn [heap logged state_config os_process calls clock_reads].
  rewrite Hrefused. cbn [is_PermissionError].
  rewrite <- !(assoc_L (++)), Nat.add_0_r. cbn [app].
  by destruct ((errno =? EPERM) || (errno =? EACCES)).
Qed.

(** A user name that is not known does not stop the start: the failure is
    logged, and [init_event_loop] goes on to schedule the jobs, start the
    server and run the loop under the identity the process had.  (The date
    of a stop that was asked for has to be one that can be computed.) *)
Theorem init_event_loop_unknown_user
    (args : Namespace) (loop : option nat) (w : World (Daemon Logging))
    (username : string) :
  trap_port args = 0 ∨
  trap_open (identity (os_process _ (heap w))) (trap_port args) = Return tt →
  user args = Some username →
  username ≠ ""%string →
  (∀ u, u ∈ passwd → pw_name u ≠ username) →
  schedulable clock (clock_reads _ (heap w)) args →
  ∃ w',
    init args loop w = (loop_result (run_forever (default get_event_loop loop)), w') ∧
    os_process _ (heap w') = os_process _ (heap w) ∧
    mkLogRecord ERROR "Could not find user %s" [ArgStr username] ∈ logged w' ∧
    SchedulerStart ∈ calls _ (heap w') ∧
    Serve ∈ calls _ (heap w') ∧
    RunForever (default get_event_loop loop) ∈ calls _ (heap w').
Proof.
  intros Htrap Huser Hname Hunknown%getpwnam_unknown Hdate.
  assert (str_truthy username = true) as Htruthy by by destruct username.
  assert (switch_to_user passwd group kernel username
            (mkWorld (os_process _ (heap w)) (logged w))
          = (Return false,
             mkWorld (os_process _ (heap w))
               (logged w ++ [mkLogRecord ERROR "Could not find user %s"
                               [ArgStr username]]))) as Hswitch.
  { unfold switch_to_user, os_getuid, os_getgid. py_step. by rewrite Hunknown. }
  eexists. split.
  { apply init_run; [done| |done].
    rewrite Huser. cbn [arg_truthy]. rewrite Htruthy.
    change (default ""%string (Some username)) with username. eauto. }
  unfold started, recurring_jobs. cbn [heap logged os_process calls].
  split; [done|]. split; [|split; [|split]].
  - apply elem_of_app. left. apply elem_of_app. right. by left.
  - do 2 (apply elem_of_app; right). apply elem_of_app. left. by left.
  - do 4 (apply elem_of_app; right). right. by left.
  - do 4 (apply elem_of_app; right). right. right. by left.
Qed.

(** Once the trap receiver is out of the way, a switch of user that was
    asked for has returned and the date of a stop that was asked for can be
    computed, [init_event_loop] gets to [run_forever], and it returns [True]
    however the loop is left: by being stopped, by a [KeyboardInterrupt],
    and also by a [SystemExit] raised inside the loop, whose exit code is
    lost.  Only another exception out of the loop makes it raise then. *)
Theorem init_event_loop_result
    (args : Namespace) (loop : option nat) (w : World (Daemon Logging)) :
  trap_port args = 0 ∨
  trap_open (identity (os_process _ (heap w))) (trap_port args) = Return tt →
  (arg_truthy (user args) = true →
   ∃ switched w',
     switch_to_user passwd group kernel (default ""%string (user args))
       (mkWorld (os_process _ (heap w)) (logged w)) = (Return switched, w')) →
  schedulable clock (clock_reads _ (heap w)) args →
  fst (init args loop w) =
    match run_forever (default get_event_loop loop) with
    | LoopStopped | LoopInterrupted | LoopRaised (SystemExit _) => Return true
    | LoopRaised e => Raise e
    end ∧
  last (calls _ (heap (snd (init args loop w))))
    = Some (RunForever (default get_event_loop loop)).
Proof.
  intros Htrap Hreturns Hdate.
  assert (∃ process log,
            if arg_truthy (user args)
            then ∃ switched,
                   switch_to_user passwd group kernel (default ""%string (user args))
                     (mkWorld (os_process _ (heap w)) (logged w))
                     = (Return switched, mkWorld process log)
            else process = os_process _ (heap w) ∧ log = logged w)
    as (process & log & Hswitch).
  { destruct (arg_truthy (user args)); [|by eexists _, _].
    destruct (Hreturns eq_refl) as (switched & [process log] & Hrun).
    exists process, log. eauto. }
  rewrite (init_run args loop w process log Htrap Hswitch Hdate).
  split; [done|]. unfold started. cbn [snd heap calls].
  change [ZinoServer (default get_event_loop loop); Serve;
          RunForever (default get_event_loop loop)]
    with ([ZinoServer (default get_event_loop loop); Serve]
            ++ [RunForever (default get_event_loop loop)]).
  rewrite !(assoc_L (++)). apply last_snoc.
Qed.

(** A stop whose date cannot be computed ends the start: with the trap
    receiver out of the way and no switch of user asked for,
    [init_event_loop] announces the stop, raises the [OverflowError] of
    [setup_initial_job_schedule] and neither starts the server nor runs the
    loop; the interval jobs are registered by then. *)
Theorem init_event_loop_stop_date_overflow
    (args : Namespace) (loop : option nat) (w : World (Daemon Logging)) (seconds : Z) :
  trap_port args = 0 ∨
  trap_open (identity (os_process _ (heap w))) (trap_port args) = Return tt →
  arg_truthy (user args) = false →
  stop_after args = Some seconds →
  representable (clock (S (S (S (clock_reads _ (heap w)))))) seconds = false →
  init args loop w =
    (Raise OverflowError,
     mkWorld
       (after_calls (heap w)
          ((if trap_port args =? 0 then []
            else trap_calls (trap_port args) (default get_event_loop loop))
             ++ recurring_jobs (state_config _ (heap w)) clock
                  FLAP_DECREMENT_INTERVAL_SECONDS (clock_reads _ (heap w))) 4)
       (logged w ++ [mkLogRecord INFO "Instructed to stop in %s seconds"
                       [ArgInt seconds]])).
Proof.
  intros Htrap Huser Hstop Hdate.
  rewrite (init_to_setup args loop w (os_process _ (heap w)) (logged w) Htrap),
    setup_run; [|by rewrite Huser].
  cbn [heap logged state_config os_process calls clock_reads].
  rewrite Hstop, Hdate. unfold after_calls.
  cbn [heap logged state_config os_process calls clock_reads].
  by rewrite (assoc_L (++)).
Qed.

Ltac main_eval :=
  cbv [main apply_logging_config call
       mbind mret Py_bind Py_ret get_heap put_heap log lift raise sys_exit try_except
       heap logged state_config os_process calls clock_reads after_calls].

(** A configuration error ends [main] right after [logging.basicConfig]:
    the fatal diagnostic is logged and the process exits with code 1 with
    [state.config] unchanged, no logging configuration applied, no back-end
    loaded, no state read and the identity of the process untouched. *)
Theorem main_config_error (args : Namespace) (w : World (Daemon Logging)) :
  let outcome :=
    read_configuration (arg_or (config_file args) DEFAULT_CONFIG_FILE) (polldevs args) in
  outcome = Raise InvalidConfigurationError ∨
  (∃ text, outcome = Raise (ValidationError text)) ∨
  (∃ errno, outcome = Raise (OSError errno) ∧ arg_truthy (config_file args) = true) →
  ∃ text,
    start args w =
      (Raise (SystemExit 1),
       mkWorld
         (after_calls (heap w) [BasicConfig (if debug args then DEBUG else INFO)] 0)
         (logged w ++ [mkLogRecord FATAL text []])).
Proof.
  intros outcome Herror.
  destruct w as [[config proc made reads] lg]. main_eval.
  rewrite load_config_unfold. fold outcome. rewrite Nat.add_0_r.
  destruct Herror as [->|[[text ->]|(errno & -> & ->)]]; cbn [heap logged]; eauto.
Qed.

(** Without a configuration file (none was named and the default one cannot
    be opened) [main] never gets to load a back-end, read the saved state
    or start the event loop: it always ends in an exception, having called
    nothing but [logging.basicConfig].  When the logging configuration of
    the built-in defaults is accepted and the secrets file can be examined,
    that exception is the [AttributeError] of reading [config.snmp] on
    [None]. *)
Theorem main_without_config_file
    (args : Namespace) (w : World (Daemon Logging)) (errno : Z) :
  read_configuration (arg_or (config_file args) DEFAULT_CONFIG_FILE) (polldevs args)
    = Raise (OSError errno) →
  arg_truthy (config_file args) = false →
  ∃ e w',
    start args w = (Raise e, w') ∧
    heap w' = after_calls (heap w) [BasicConfig (if debug args then DEBUG else INFO)] 0 ∧
    (dictConfig (logging _ (state_config _ (heap w))) = None →
     ∀ readable,
       file_is_world_readable (authentication_file _ (state_config _ (heap w)))
         = Return readable →
       e = AttributeError).
Proof.
  intros Hmissing Hunnamed.
  destruct w as [[config proc made reads] lg]. main_eval.
  rewrite load_config_unfold, Hmissing, Hunnamed, Nat.add_0_r.
  cbn [heap logged state_config].
  destruct (dictConfig (logging _ config)) as [error|].
  { eexists _, _. split; [reflexivity|]. split; [reflexivity|done]. }
  destruct (file_is_world_readable (authentication_file _ config)) as [[]|e].
  - eexists _, _. split; [reflexivity|]. split; [reflexivity|done].
  - eexists _, _. split; [reflexivity|]. split; [reflexivity|done].
  - destruct (is_OSError e);
      eexists _, _; (split; [reflexivity|]); (split; [reflexivity|]); by intros _ ?.
Qed.

(** An invalid logging configuration is fatal: [main] logs it and exits
    with code 1, with the configuration that was read already stored in
    [state.config]. *)
Theorem main_invalid_logging
    (args : Namespace) (w : World (Daemon Logging))
    (c : Configuration Logging) (error : string) :
  read_configuration (arg_or (config_file args) DEFAULT_CONFIG_FILE) (polldevs args)
    = Return c →
  dictConfig (logging _ c) = Some error →
  start args w =
    (Raise (SystemExit 1),
     mkWorld
       (mkDaemon _ c (os_process _ (heap w))
          (calls _ (heap w) ++ [BasicConfig (if debug args then DEBUG else INFO)])
          (clock_reads _ (heap w)))
       (logged w ++
          [mkLogRecord FATAL ("Invalid logging configuration: " +:+ error) []])).
Proof.
  intros Hread Hinvalid.
  destruct w as [[config proc made reads] lg]. main_eval.
  rewrite load_config_unfold, Hread. cbn [heap logged state_config]. by rewrite Hinvalid.
Qed.

(** A secrets file that cannot be examined is fatal: [main] logs the
    [OSError] and exits with code 1 before it loads a back-end or reads the
    saved state. *)
Theorem main_secrets_file_unreadable
    (args : Namespace) (w : World (Daemon Logging))
    (c : Configuration Logging) (errno : Z) :
  read_configuration (arg_or (config_file args) DEFAULT_CONFIG_FILE) (polldevs args)
    = Return c →
  dictConfig (logging _ c) = None →
  file_is_world_readable (authentication_file _ c) = Raise (OSError errno) →
  start args w =
    (Raise (SystemExit 1),
     mkWorld
       (mkDaemon _ c (os_process _ (heap w))
          (calls _ (heap w) ++ [BasicConfig (if debug args then DEBUG else INFO)])
          (clock_reads _ (heap w)))
       (logged w ++ [mkLogRecord FATAL "%s" [ArgExn (OSError errno)]])).
Proof.
  intros Hread Hvalid Hsecrets.
  destruct w as [[config proc made reads] lg]. main_eval.
  rewrite load_config_unfold, Hread. cbn [heap logged state_config].
  by rewrite Hvalid, Hsecrets.
Qed.

(** With a configuration that was read, a logging configuration that is
    accepted and a secrets file that can be examined, [main] gets to
    [init_event_loop]: a world-readable secrets file costs a warning and
    nothing else, the back-ends named in the configuration are loaded, the
    saved state is read from the configured file, and what [init_event_loop]
    raises comes out of [main]. *)
Theorem main_reaches_event_loop
    (args : Namespace) (w : World (Daemon Logging))
    (c : Configuration Logging) (readable : bool) :
  read_configuration (arg_or (config_file args) DEFAULT_CONFIG_FILE) (polldevs args)
    = Return c →
  dictConfig (logging _ c) = None →
  file_is_world_readable (authentication_file _ c) = Return readable →
  start args w =
    match
      init args None
        (mkWorld
           (mkDaemon _ c (os_process _ (heap w))
              (calls _ (heap w)
                 ++ [BasicConfig (if debug args then DEBUG else INFO);
                     ImportSnmpBackend (snmp_backend _ c); InitBackend;
                     ImportTrapBackend (Some (snmp_backend _ c));
                     LoadState (persistence_file _ c)])
              (clock_reads _ (heap w)))
           (logged w ++
              if readable
              then [mkLogRecord WARNING
                      ("Secrets file " +:+ authentication_file _ c
                         +:+ " is world-readable. Please ensure that it is only readable by the user that runs the zino process.")
                      []]
              else []))
    with
    | (Return _, w') => (Return tt, w')
    | (Raise e, w') => (Raise e, w')
    end.
Proof.
  intros Hread Hvalid Hsecrets.
  destruct w as [[config proc made reads] lg]. main_eval.
  rewrite load_config_unfold, Hread. cbn [heap logged state_config].
  rewrite Hvalid, Hsecrets.
  destruct readable; main_eval; rewrite <- ?(assoc_L (++)); cbn [app];
    rewrite ?app_nil_r; destruct (init _ _ _) as [[[]|e] w']; reflexivity.
Qed.

End StartupProperties.

Section StartupWitnesses.

Import Zino.

(** The sample objects, counted for ["Even"] (passed twice) and ["Big"]. *)
Lemma count_reachable_objects_counts_witness :
  default 0%nat
    (_count_reachable_objects nat sample_objects sample_isinstance
       ["Even"; "Big"; "Even"]%string !! "Even"%string) = 6%nat ∧
  default 0%nat
    (_count_reachable_objects nat sample_objects sample_isinstance
       ["Even"; "Big"; "Even"]%string !! "Missing"%string) = 0%nat.
Proof.
  split.
  - exact (proj1 (count_reachable_objects_counts nat sample_objects sample_isinstance
                    ["Even"; "Big"; "Even"]%string "Even"%string)).
  - exact (proj1 (count_reachable_objects_counts nat sample_objects sample_isinstance
                    ["Even"; "Big"; "Even"]%string "Missing"%string)).
Defined.

(** An unprivileged start on the default trap port 162. *)
Lemma init_event_loop_trap_port_refused_witness :
  sample_init until_stopped no_arguments None unprivileged_daemon =
    (Raise (SystemExit EACCES),
     mkWorld (after_calls (heap unprivileged_daemon) (trap_calls 162 0%nat) 0)
       (logged unprivileged_daemon ++
          [mkLogRecord FATAL
             "Permission denied on UDP port %s. Use --trap-port to specify unprivileged port, or run as root"
             [ArgInt 162]])).
Proof.
  apply (init_event_loop_trap_port_refused unit sample_passwd sample_group root_only
           root_binds 0%nat until_stopped ticking 300
           no_arguments None unprivileged_daemon 13); [discriminate|reflexivity].
Defined.

(** A start by root with [--trap-port 0 --user nosuchuser]. *)
Lemma init_event_loop_unknown_user_witness :
  ∃ w',
    sample_init until_stopped unknown_user_arguments None sample_daemon
      = (Return true, w') ∧
    os_process _ (heap w') = os_process _ (heap sample_daemon) ∧
    mkLogRecord ERROR "Could not find user %s" [ArgStr "nosuchuser"] ∈ logged w' ∧
    SchedulerStart ∈ calls _ (heap w') ∧
    Serve ∈ calls _ (heap w') ∧
    RunForever 0%nat ∈ calls _ (heap w').
Proof.
  apply (init_event_loop_unknown_user unit sample_passwd sample_group root_only
           root_binds 0%nat until_stopped ticking 300
           unknown_user_arguments None sample_daemon "nosuchuser").
  - by left.
  - reflexivity.
  - discriminate.
  - intros u Hu. repeat (apply elem_of_cons in Hu as [->|Hu]; [discriminate|]).
    by apply elem_of_nil in Hu.
  - exact I.
Defined.

(** A start by root in which [sys.exit(3)] is called inside the loop. *)
Lemma init_event_loop_result_witness :
  fst (sample_init exits_inside no_arguments None sample_daemon) = Return true ∧
  last (calls _ (heap (snd (sample_init exits_inside no_arguments None sample_daemon))))
    = Some (RunForever 0%nat).
Proof.
  apply (init_event_loop_result unit sample_passwd sample_group root_only
           root_binds 0%nat exits_inside ticking 300
           no_arguments None sample_daemon).
  - by right.
  - discriminate.
  - exact I.
Defined.

(** The schedule of a start with [--stop-in 30], and of one with
    [--stop-in 999999999999]. *)
Lemma setup_stop_job_witness :
  (∃ w', sample_setup 0%nat stop_in_30 sample_daemon = (Return tt, w') ∧
         last (calls _ (heap w'))
           = Some (AddJob (mkJobRequest (loop_stop 0%nat)
                             (DateTrigger (ticking 3 + timedelta_seconds 30))
                             [] None None))) ∧
  (∃ w', sample_setup 0%nat stop_in_far_future sample_daemon = (Raise OverflowError, w') ∧
         ∀ r, AddJob r ∈ calls _ (heap w') → recurring r).
Proof.
  split.
  - destruct (setup_stop_job unit ticking 300 0%nat stop_in_30 sample_daemon)
      as (result & w' & added & Hrun & Hcalls & _ & -> & Hlast).
    exists w'. split; [exact Hrun|]. rewrite Hcalls. exact Hlast.
  - destruct (setup_stop_job unit ticking 300 0%nat stop_in_far_future sample_daemon)
      as (result & w' & added & Hrun & Hcalls & _ & -> & Hjobs).
    exists w'. split; [exact Hrun|]. rewrite Hcalls. exact Hjobs.
Defined.

(** A start by root with [--stop-in 999999999999]. *)
Lemma init_event_loop_stop_date_overflow_witness :
  sample_init until_stopped stop_in_far_future None sample_daemon =
    (Raise OverflowError,
     mkWorld
       (after_calls (heap sample_daemon)
          (trap_calls 162 0%nat
             ++ recurring_jobs sample_config ticking 300 0%nat) 4)
       (logged sample_daemon ++ [mkLogRecord INFO "Instructed to stop in %s seconds"
                                   [ArgInt 999999999999]])).
Proof.
  apply (init_event_loop_stop_date_overflow unit sample_passwd sample_group root_only
           root_binds 0%nat until_stopped ticking 300
           stop_in_far_future None sample_daemon 999999999999);
    [by right|reflexivity|reflexivity|reflexivity].
Defined.

(** A start with a configuration file that is not valid TOML. *)
Lemma main_config_error_witness :
  ∃ text,
    sample_main valid_logging invalid_config_file secrets_private no_arguments
      sample_daemon =
      (Raise (SystemExit 1),
       mkWorld (after_calls (heap sample_daemon) [BasicConfig INFO] 0)
         (logged sample_daemon ++ [mkLogRecord FATAL text []])).
Proof.
  apply (main_config_error unit valid_logging invalid_config_file secrets_private
           sample_passwd sample_group root_only root_binds 0%nat until_stopped
           ticking 300 no_arguments sample_daemon).
  by left.
Defined.

(** A start without any configuration file. *)
Lemma main_without_config_file_witness :
  ∃ e w',
    sample_main valid_logging no_config_file secrets_private no_arguments sample_daemon
      = (Raise e, w') ∧
    heap w' = after_calls (heap sample_daemon) [BasicConfig INFO] 0 ∧
    (valid_logging (logging _ (state_config _ (heap sample_daemon))) = None →
     ∀ readable,
       secrets_private (authentication_file _ (state_config _ (heap sample_daemon)))
         = Return readable →
       e = AttributeError).
Proof.
  apply (main_without_config_file unit valid_logging no_config_file secrets_private
           sample_passwd sample_group root_only root_binds 0%nat until_stopped
           ticking 300 no_arguments sample_daemon 2); reflexivity.
Defined.

(** A start whose configuration has a logging section that is rejected. *)
Lemma main_invalid_logging_witness :
  sample_main invalid_logging reads_sample_config secrets_private no_arguments
    sample_daemon =
    (Raise (SystemExit 1),
     mkWorld
       (mkDaemon _ sample_config (os_process _ (heap sample_daemon))
          (calls _ (heap sample_daemon) ++ [BasicConfig INFO])
          (clock_reads _ (heap sample_daemon)))
       (logged sample_daemon ++
          [mkLogRecord FATAL
             "Invalid logging configuration: Unable to configure handler 'console'" []])).
Proof.
  apply (main_invalid_logging unit invalid_logging reads_sample_config secrets_private
           sample_passwd sample_group root_only root_binds 0%nat until_stopped
           ticking 300 no_arguments sample_daemon sample_config
           "Unable to configure handler 'console'"); reflexivity.
Defined.

(** A start whose secrets file does not exist. *)
Lemma main_secrets_file_unreadable_witness :
  sample_main valid_logging reads_sample_config secrets_missing no_arguments
    sample_daemon =
    (Raise (SystemExit 1),
     mkWorld
       (mkDaemon _ sample_config (os_process _ (heap sample_daemon))
          (calls _ (heap sample_daemon) ++ [BasicConfig INFO])
          (clock_reads _ (heap sample_daemon)))
       (logged sample_daemon ++ [mkLogRecord FATAL "%s" [ArgExn (OSError 2)]])).
Proof.
  apply (main_secrets_file_unreadable unit valid_logging reads_sample_config
           secrets_missing sample_passwd sample_group root_only root_binds 0%nat
           until_stopped ticking 300 no_arguments sample_daemon sample_config 2);
    reflexivity.
Defined.

(** A start by root with everything in place. *)
Lemma main_reaches_event_loop_witness :
  sample_main valid_logging reads_sample_config secrets_private no_arguments
    sample_daemon =
    match
      sample_init until_stopped no_arguments None
        (mkWorld
           (mkDaemon _ sample_config (os_process _ (heap sample_daemon))
              (calls _ (heap sample_daemon)
                 ++ [BasicConfig INFO; ImportSnmpBackend "pysnmp"; InitBackend;
                     ImportTrapBackend (Some "pysnmp"%string);
                     LoadState "zino-state.json"])
              (clock_reads _ (heap sample_daemon)))
           (logged sample_daemon ++ []))
    with
    | (Return _, w') => (Return tt, w')
    | (Raise e, w') => (Raise e, w')
    end.
Proof.
  apply (main_reaches_event_loop unit valid_logging reads_sample_config
           secrets_private sample_passwd sample_group root_only root_binds 0%nat
           until_stopped ticking 300 no_arguments sample_daemon sample_config false);
    reflexivity.
Defined.

End StartupWitnesses.

Section DebouncingWitnessesMore.

Import Zino.

(** A notification on a scheduler without the dump job, and on one whose
    dump job is paused. *)
Lemma notify_needs_scheduled_job_witness :
  notify 0 MaintenanceChanged empty_scheduler = (Raise AttributeError, empty_scheduler) ∧
  notify 0 MaintenanceChanged paused_scheduler = (Raise TypeError, paused_scheduler).
Proof.
  split.
  - apply (notify_needs_scheduled_job 0 MaintenanceChanged empty_scheduler).
    reflexivity.
  - apply (proj2 (notify_needs_scheduled_job 0 MaintenanceChanged paused_scheduler)
             (mkJob (timedelta_seconds 300) None)); reflexivity.
Defined.

End DebouncingWitnessesMore.
